(** * wandb-addons: metrics logger callback and detection box utilities

    A shallow embedding of
    - [wandb_addons/keras/metrics_logger.py] ([WandbMetricsLogger]) and
    - [wandb_addons/ultralytics/bbox_utils.py]
    together with the properties stated about them.

    Python dictionaries are finite maps ([gmap]), Python integers are [Z],
    exceptions are an error result, and the calls made to the [wandb] SDK
    are recorded, in order, in a trace. *)

From Stdlib Require Import ZArith QArith.
From stdpp Require Import base gmap strings list fin_maps.

Local Open Scope Z_scope.

(** ** Python results and exceptions *)

Module Py.

(** The exception classes that the embedded code can meet.  All of them
    derive from [Exception]. *)
Inductive exn :=
| TypeError | KeyError | IndexError | AttributeError
| ValueError | RuntimeError | ZeroDivisionError | WandbError.

Definition exn_eqb (a b : exn) : bool :=
  match a, b with
  | TypeError, TypeError | KeyError, KeyError | IndexError, IndexError
  | AttributeError, AttributeError | ValueError, ValueError
  | RuntimeError, RuntimeError | ZeroDivisionError, ZeroDivisionError
  | WandbError, WandbError => true
  | _, _ => false
  end.

Inductive result (A : Type) :=
| Ok (a : A)
| Raise (e : exn).
Arguments Ok {A} a.
Arguments Raise {A} e.

Definition bind {A B} (r : result A) (k : A → result B) : result B :=
  match r with Ok a => k a | Raise e => Raise e end.

(** [d[k]] on a dictionary: [KeyError] when the key is absent. *)
Definition getitem `{Countable K} {A} (d : gmap K A) (k : K) : result A :=
  match d !! k with Some a => Ok a | None => Raise KeyError end.

(** [l[i]] on a sequence with a non-negative index. *)
Definition index {A} (l : list A) (i : nat) : result A :=
  match l !! i with Some a => Ok a | None => Raise IndexError end.

(** The numbers a logged record or a confidence map can hold: a Python
    [int] or a Python [float] (the type [F] of floats is a parameter). *)
Inductive scalar (F : Type) :=
| SInt (z : Z)
| SFloat (x : F).
Arguments SInt {F} z.
Arguments SFloat {F} x.

(** The calls made to the [wandb] module, in the order they happen. *)
Inductive wandb_call (F : Type) :=
| define_metric (name : string) (step_metric : option string)
| log (data : gmap string (scalar F))
| termerror (msg : string) (repeat : bool)
| termwarn (msg : string).
Arguments define_metric {F} name step_metric.
Arguments log {F} data.
Arguments termerror {F} msg repeat.
Arguments termwarn {F} msg.

(** A function body running over a mutable state [S]: it may raise, and
    the effects made before the exception stay. *)
Definition SE (S A : Type) : Type := S → result A * S.

Section monad.
Context {S : Type}.

Definition ret {A} (a : A) : SE S A := λ s, (Ok a, s).
Definition raise {A} (e : exn) : SE S A := λ s, (Raise e, s).
Definition bindM {A B} (m : SE S A) (k : A → SE S B) : SE S B :=
    λ s, match m s with
         | (Ok a, s') => k a s'
         | (Raise e, s') => (Raise e, s')
         end.
Definition lift {A} (r : result A) : SE S A := λ s, (r, s).
Definition get : SE S S := λ s, (Ok s, s).
Definition put (s : S) : SE S unit := λ _, (Ok tt, s).

(** [try: body except Exception: handler] *)
Definition try_except {A} (body handler : SE S A) : SE S A :=
    λ s, match body s with
         | (Ok a, s') => (Ok a, s')
         | (Raise _, s') => handler s'
         end.

(** [try: body except <cls>: handler]: any other exception goes on. *)
Definition try_except_only {A} (cls : exn) (body handler : SE S A) : SE S A :=
    λ s, match body s with
         | (Ok a, s') => (Ok a, s')
         | (Raise e, s') =>
             if exn_eqb e cls then handler s' else (Raise e, s')
         end.
End monad.

(** A dictionary whose order of insertion matters is the list of its
    items in that order; [d[k]] raises [KeyError] for an absent key. *)
Fixpoint dict_get {V} (d : list (Z * V)) (k : Z) : result V :=
  match d with
  | [] => Raise KeyError
  | (k', v) :: d => if k' =? k then Ok v else dict_get d k
  end.

End Py.
Import Py.

#[global] Instance exn_eq_dec : EqDecision exn.
Proof. solve_decision. Defined.
#[global] Instance result_ret : MRet result := @Ok.
#[global] Instance result_bind : MBind result := λ A B k r, Py.bind r k.
#[global] Instance SE_ret {S} : MRet (SE S) := @ret S.
#[global] Instance SE_bind {S} : MBind (SE S) := λ A B k m, bindM m k.

(** ** keras/metrics_logger.py *)

Module MetricsLogger.
Section defs.
Context {F : Type}.

(** *** What the callback reads from Keras *)

(** The object [self.model.optimizer.learning_rate], described by the
  outcome of each operation [_get_lr] applies to it. *)
Record LearningRate := {
  is_tf_tensor : bool;            (* isinstance(lr, tf.Tensor) *)
  is_torch_tensor : bool;         (* isinstance(lr, torch.Tensor) *)
  numpy_item : result F;          (* float(lr.numpy().item()) *)
  to_cpu_numpy_item : result F;   (* float(lr.to("cpu").numpy().item()) *)
  np_array_item : result F;       (* float(np.array(lr).item()) *)
  }.

Record Optimizer := {
  is_keras_optimizer : bool;      (* isinstance(opt, keras.optimizers.Optimizer) *)
  learning_rate : result LearningRate;
  }.

Record keras_env := {
  backend : string;               (* keras.backend.backend() *)
  model_optimizer : result Optimizer;   (* self.model.optimizer *)
  }.

(** Module-level flags, lines 9-25: at most one of them is set, and none
  is for a backend other than these three. *)
Definition tf_backend_available (env : keras_env) : bool :=
  bool_decide (backend env = "tensorflow").
Definition torch_backend_available (env : keras_env) : bool :=
  bool_decide (backend env = "torch").
Definition jax_backend_available (env : keras_env) : bool :=
  bool_decide (backend env = "jax").

(** *** The callback object and its effects *)

Record WandbMetricsLogger := {
  logging_batch_wise : bool;
  log_freq : option Z;            (* [None] is Python's None *)
  global_batch : Z;
  global_step : Z;
  }.

(** The callback and the trace of [wandb] calls made so far. *)
Record state := {
  self : WandbMetricsLogger;
  wandb : list (wandb_call F);
  }.

Abbreviation M := (SE state).

Definition get_self : M WandbMetricsLogger := s ← get; mret (self s).
Definition set_self (l : WandbMetricsLogger) : M unit :=
  s ← get; put {| self := l; wandb := wandb s |}.
Definition call (c : wandb_call F) : M unit :=
  s ← get; put {| self := self s; wandb := wandb s ++ [c] |}.

(** *** [__init__], lines 69-103 *)

(** The argument [log_freq]: a string or an integer. *)
Inductive log_freq_arg :=
  | LFStr (s : string)
  | LFInt (n : Z).

#[global] Instance log_freq_arg_eq_dec : EqDecision log_freq_arg.
Proof. solve_decision. Defined.

(** [run_active] is [wandb.run is not None]; [calls] is the trace so far.
  The telemetry context of lines 83-84 makes no [wandb] call of the
  kinds recorded here. *)
Definition __init__ (run_active : bool) (log_freq : log_freq_arg)
    (initial_global_step : Z) (calls : list (wandb_call F))
    : result WandbMetricsLogger * list (wandb_call F) :=
  if negb run_active then (Raise WandbError, calls)
  else
    let log_freq := if decide (log_freq = LFStr "batch") then LFInt 1 else log_freq in
    let logging_batch_wise := match log_freq with LFInt _ => true | LFStr _ => false end in
    let self := {|
      logging_batch_wise := logging_batch_wise;
      log_freq := match log_freq with LFInt n => Some n | LFStr _ => None end;
      global_batch := 0;
      global_step := initial_global_step |} in
    if logging_batch_wise then
      (Ok self, calls ++ [define_metric "batch/batch_step" None;
                          define_metric "batch/*" (Some "batch/batch_step")])
    else
      (Ok self, calls ++ [define_metric "epoch/epoch" None;
                          define_metric "epoch/*" (Some "epoch/epoch")]).

(** *** [_get_lr], lines 105-128 *)

Definition unable_to_log_lr : wandb_call F :=
  termerror "Unable to log learning rate." false.

(** [self.model.optimizer.learning_rate] *)
Definition optimizer_learning_rate (env : keras_env) : M LearningRate :=
  opt ← lift (model_optimizer env); lift (learning_rate opt).

(** The result is [Some x] for a float and [None] for Python's None; the
  body of the outer [try] falls off the end of the function, which
  returns None, when the optimizer is not a Keras optimizer, and so
  does the handler when no backend flag is set. *)
Definition _get_lr (env : keras_env) : M (option F) :=
  try_except
    (opt ← lift (model_optimizer env);
     if is_keras_optimizer opt then
       lr ← lift (learning_rate opt);
       x ← lift (numpy_item lr);
       mret (Some x)
     else mret None)
    (if tf_backend_available env then
       lr ← optimizer_learning_rate env;
       if is_tf_tensor lr then
         lr ← optimizer_learning_rate env;
         x ← lift (numpy_item lr);
         mret (Some x)
       else
         call unable_to_log_lr;; mret None
     else if torch_backend_available env then
       lr ← optimizer_learning_rate env;
       if is_torch_tensor lr then
         lr ← optimizer_learning_rate env;
         x ← lift (to_cpu_numpy_item lr);
         mret (Some x)
       else
         call unable_to_log_lr;; mret None
     else if jax_backend_available env then
       try_except
         (lr ← optimizer_learning_rate env;
          x ← lift (np_array_item lr);
          mret (Some x))
         (call unable_to_log_lr;; mret None)
     else mret None).

(** *** [on_epoch_end], lines 130-139 *)

(** [{f"<prefix>{k}": v for k, v in logs.items()}] *)
Definition rekey (prefix : string) (logs : gmap string (scalar F))
    : gmap string (scalar F) :=
  kmap (String.append prefix) logs.

Definition set_lr (key : string) (lr : option F)
    (logs : gmap string (scalar F)) : gmap string (scalar F) :=
  match lr with
  | Some x => <[key := SFloat x]> logs
  | None => logs
  end.

Definition on_epoch_end (env : keras_env) (epoch : Z)
    (logs : option (gmap string (scalar F))) : M unit :=
  let logs := match logs with
              | None => ∅
              | Some logs => rekey "epoch/" logs
              end in
  let logs := <["epoch/epoch" := SInt epoch]> logs in
  lr ← _get_lr env;
  let logs := set_lr "epoch/learning_rate" lr logs in
  call (log logs).

(** *** [on_batch_end], lines 141-153 *)

(** [batch % self.log_freq]: Python's remainder has the sign of the
  divisor, as [Z.modulo] has. *)
Definition py_mod (a : Z) (b : option Z) : result Z :=
  match b with
  | None => Raise TypeError
  | Some b => if b =? 0 then Raise ZeroDivisionError else Ok (a mod b)
  end.

(** [x + self.log_freq] *)
Definition py_add (a : Z) (b : option Z) : result Z :=
  match b with
  | None => Raise TypeError
  | Some b => Ok (a + b)
  end.

Definition on_batch_end (env : keras_env) (batch : Z)
    (logs : option (gmap string (scalar F))) : M unit :=
  s ← get_self;
  set_self {| logging_batch_wise := logging_batch_wise s;
              log_freq := log_freq s;
              global_batch := global_batch s;
              global_step := global_step s + 1 |};;
  s ← get_self;
  emit ← (if logging_batch_wise s then
            r ← lift (py_mod batch (log_freq s)); mret (r =? 0)
          else mret false);
  if emit : bool then
    let logs := match logs with
                | Some logs =>
                    if bool_decide (logs = ∅) then ∅ else rekey "batch/" logs
                | None => ∅
                end in
    let logs := <["batch/batch_step" := SInt (global_batch s)]> logs in
    lr ← _get_lr env;
    let logs := set_lr "batch/learning_rate" lr logs in
    call (log logs);;
    s ← get_self;
    b ← lift (py_add (global_batch s) (log_freq s));
    set_self {| logging_batch_wise := logging_batch_wise s;
                log_freq := log_freq s;
                global_batch := b;
                global_step := global_step s |}
  else mret tt.

(** [on_train_batch_end], lines 155-158 *)
Definition on_train_batch_end (env : keras_env) (batch : Z)
    (logs : option (gmap string (scalar F))) : M unit :=
  on_batch_end env batch
    (Some match logs with
          | Some logs => if bool_decide (logs = ∅) then ∅ else logs
          | None => ∅
          end).

(** *** Two abbreviations used in the statements below *)

(** The record that [on_epoch_end] and [on_batch_end] build: the metrics
    under the prefix, then the step key, then the learning rate when
    there is one; a later key replaces an equal earlier one. *)
Definition record (prefix step_key : string) (step : Z) (lr : option F) logs
      : gmap string (scalar F) :=
    set_lr (prefix +:+ "learning_rate") lr
      (<[prefix +:+ step_key := SInt step]> (rekey prefix logs)).

(** The callback after line 142. *)
Definition counted (l : WandbMetricsLogger) : WandbMetricsLogger :=
    {| logging_batch_wise := logging_batch_wise l; log_freq := log_freq l;
       global_batch := global_batch l; global_step := global_step l + 1 |}.

(** The states a callback goes through: [after s0 n s] says that [s] is
    reached from [s0] by calls of the three methods, [n] of them being
    batch events; a call that raises leaves the state it has made. *)
Inductive after (s0 : state) : nat → state → Prop :=
| after_none : after s0 0 s0
| after_epoch n s env epoch logs :
    after s0 n s → after s0 n (on_epoch_end env epoch logs s).2
| after_batch n s env batch logs :
    after s0 n s → after s0 (S n) (on_batch_end env batch logs s).2
| after_train_batch n s env batch logs :
    after s0 n s → after s0 (S n) (on_train_batch_end env batch logs s).2.

End defs.
Arguments LearningRate F : clear implicits.
Arguments Optimizer F : clear implicits.
Arguments keras_env F : clear implicits.
Arguments state F : clear implicits.
End MetricsLogger.

(** ** ultralytics/bbox_utils.py *)

Module BBoxUtils.
Section defs.
Context {F Image Pixels : Type}.

(** Python's arithmetic on floats, as far as this file uses it. *)
Variable float_of_int : Z → F.        (* an int operand of [+] or [/] *)
Variable fadd fdiv : F → F → F.
Variable int_of_float : F → Z.        (* [int(x)] *)

(** A box tensor: four floats. *)
Record vec4 := Vec4 { v0 : F; v1 : F; v2 : F; v3 : F }.

(** [box.tolist()] *)
Definition tolist (box : vec4) : list F := [v0 box; v1 box; v2 box; v3 box].

(** [((gain_h, gain_w), (pad_w, pad_h))] *)
Definition ratio_pad_t : Type := (F * F) * (F * F).

(** The three functions of [ultralytics.yolo.utils.ops] that the mapper
  calls, and the parts of the [wandb] and predictor interfaces used. *)
Variable xywhn2xyxy : vec4 → Z → Z → vec4.          (* box, h, w *)
Variable scale_boxes : list Z → vec4 → list Z → ratio_pad_t → result vec4.
Variable xyxy2xywh : vec4 → vec4.

(** [a, b = shape] *)
Definition unpack2 (shape : list Z) : result (Z * Z) :=
  match shape with
  | [a; b] => Ok (a, b)
  | _ => Raise ValueError
  end.

(** *** [scale_bounding_box_to_original_image_shape], lines 9-32 *)

Definition scale_bounding_box_to_original_image_shape
    (box : vec4) (resized_image_shape original_image_shape : list Z)
    (ratio_pad : ratio_pad_t) : result (list F) :=
  '(resized_image_height, resized_image_width) ← unpack2 resized_image_shape;
  let box := xywhn2xyxy box resized_image_height resized_image_width in
  box ← scale_boxes resized_image_shape box original_image_shape ratio_pad;
  let box := xyxy2xywh box in
  let box := tolist box in
  mret box.

(** *** Annotations, images and tables *)

(** A class label of a ground-truth box: the name found in the label
  map, or the raw class id when the map is empty (line 47). *)
Inductive label :=
  | Name (s : string)
  | Id (c : Z).

Record annotation := {
  middle : Z * Z;
  width : Z;
  height : Z;
  domain : string;
  class_id : Z;
  box_caption : label;
  scores : option F;              (* [{"confidence": x}], predictions only *)
  }.

Record box_group := {
  box_data : option (list annotation);      (* [None] is Python's None *)
  class_labels : option (list (Z * string));
  }.

Inductive image_source :=
  | FromPath (p : string)
  | FromArray (a : Pixels).

Variable wandb_Image : image_source → list (string * box_group) → result Image.
Variable flip_channels : Pixels → Pixels.             (* [a[:, :, ::-1]] *)

Inductive cell :=
  | CInt (z : Z)
  | CImage (i : Image)
  | CMap (m : gmap string (scalar F)).

(** The [wandb.Table] being filled and the trace of [wandb] calls. *)
Record state := {
  table : list (list cell);
  wandb : list (wandb_call F);
  }.

Abbreviation M := (SE state).

Definition call (c : wandb_call F) : M unit :=
  s ← get; put {| table := table s; wandb := wandb s ++ [c] |}.

(** [table.add_data(...)] *)
Definition add_data (row : list cell) : M unit :=
  s ← get; put {| table := table s ++ [row]; wandb := wandb s |}.

(** *** [get_ground_truth_annotations], lines 35-76 *)

(** A validation batch.  The tensors hold one entry per box, the lists
  one entry per frame. *)
Record Batch := {
  im_file : list string;
  batch_idx : list Z;
  bboxes : list vec4;
  cls : list Z;
  ori_shape : list (list Z);
  resized_shape : list (list Z);
  ratio_pad : list ratio_pad_t;
  }.

(** [t[mask]]: the mask must be as long as the tensor. *)
Definition select {A} (mask : list bool) (t : list A) : result (list A) :=
  if bool_decide (length mask = length t)
  then Ok (snd <$> filter (λ p, fst p = true) (zip mask t))
  else Raise IndexError.

(** [{v: k for k, v in d.items()}]: a later item replaces an earlier
  one with the same name. *)
Definition reverse_dict (d : list (Z * string)) : gmap string Z :=
  foldl (λ m kv, <[kv.2 := kv.1]> m) ∅ d.

(** [d[label]] on the reversed map, whose keys are names. *)
Definition reverse_get (d : gmap string Z) (l : label) : result Z :=
  match l with
  | Name s => getitem d s
  | Id _ => Raise KeyError
  end.

Definition no_labels_warning (image_path : string) : wandb_call F :=
  termwarn ("Image: " +:+ image_path +:+ " has no bounding boxes labels").

Definition get_ground_truth_annotations (img_idx : nat) (image_path : string)
    (batch : Batch) (class_name_map : option (list (Z * string)))
    : M (option (list annotation)) :=
  let indices := (λ b, bool_decide (b = Z.of_nat img_idx)) <$> batch_idx batch in
  bboxes ← lift (select indices (bboxes batch));
  cls_labels ← lift (select indices (cls batch));
(* line 40: [class_name_map.items()] *)
items ← lift (match class_name_map with
              | Some d => Ok d
              | None => Raise AttributeError
              end);
let class_name_map_reverse := reverse_dict items in
if bool_decide (length bboxes = 0%nat) then
  call (no_labels_warning image_path);; mret None
else
  cls_labels ← lift (select indices (cls batch));
  cls_labels ← lift (match items with
                     | [] => Ok (Id <$> cls_labels)
                     | _ => mapM (λ l, n ← dict_get items l; mret (Name n)) cls_labels
                     end);
  original_image_shape ← lift (index (ori_shape batch) img_idx);
  resized_image_shape ← lift (index (resized_shape batch) img_idx);
  ratio_pad ← lift (index (ratio_pad batch) img_idx);
  data ← lift (mapM (λ '(box, label),
            box ← scale_bounding_box_to_original_image_shape
                    box resized_image_shape original_image_shape ratio_pad;
            b0 ← index box 0; b1 ← index box 1;
            b2 ← index box 2; b3 ← index box 3;
            c ← reverse_get class_name_map_reverse label;
            mret {| middle := (int_of_float b0, int_of_float b1);
                    width := int_of_float b2;
                    height := int_of_float b3;
                    domain := "pixel";
                    class_id := c;
                    box_caption := label;
                    scores := None |})
          (zip bboxes cls_labels));
  mret (Some data).

(** *** [create_prediction_metadata_map], lines 79-88 *)

(** A prediction is a dictionary with string keys; [V] is the type of its
    values, the image id among them. *)
Context `{Countable V}.

(** The loop of lines 84-86 over the predictions still to come. *)
Fixpoint metadata_loop (model_predictions : list (gmap string V))
    (pred_metadata_map : gmap V (list (gmap string V)))
    : result (gmap V (list (gmap string V))) :=
  match model_predictions with
  | [] => Ok pred_metadata_map
  | prediction :: model_predictions =>
      (* [pred_metadata_map.setdefault(prediction["image_id"], [])] *)
      id ← getitem prediction "image_id";
      let pred_metadata_map :=
        match pred_metadata_map !! id with
        | Some _ => pred_metadata_map
        | None => <[id := []]> pred_metadata_map
        end in
      (* [pred_metadata_map[prediction["image_id"]].append(prediction)] *)
      id ← getitem prediction "image_id";
      l ← getitem pred_metadata_map id;
      metadata_loop model_predictions (<[id := l ++ [prediction]]> pred_metadata_map)
  end.

Definition create_prediction_metadata_map
    (model_predictions : list (gmap string V))
    : result (gmap V (list (gmap string V))) :=
  metadata_loop model_predictions ∅.

(** The predictions of one image, in their order. *)
Definition predictions_of (id : V) (model_predictions : list (gmap string V))
    : list (gmap string V) :=
  filter (λ prediction, prediction !! "image_id" = Some id) model_predictions.

(** What the loop adds to the list of one image. *)
Definition extended (known : option (list (gmap string V)))
    (more : list (gmap string V)) : option (list (gmap string V)) :=
  match known, more with
  | None, [] => None
  | None, _ => Some more
  | Some l, _ => Some (l ++ more)
  end.

(** *** [get_mean_confidence_map], lines 91-102 *)

(** [sum(l)]: the additions start from the int [0]. *)
Definition py_sum (l : list F) : F := foldl fadd (float_of_int 0) l.

(** [sum(l) / len(l)] *)
Definition mean (l : list F) : F :=
  fdiv (py_sum l) (float_of_int (Z.of_nat (length l))).

(** Lines 95-96. *)
Fixpoint append_confidences (class_id_to_label : list (Z * string))
    (detections : list (Z * F)) (confidence_map : gmap string (list F))
    : result (gmap string (list F)) :=
  match detections with
  | [] => Ok confidence_map
  | (class_idx, confidence_value) :: detections =>
      label ← dict_get class_id_to_label class_idx;
      confidence_list ← getitem confidence_map label;
      append_confidences class_id_to_label detections
        (<[label := confidence_list ++ [confidence_value]]> confidence_map)
  end.

(** Lines 98-101. *)
Definition mean_or_zero (confidence_list : list F) : scalar F :=
  if (0 <? length confidence_list)%nat
  then SFloat (mean confidence_list)
  else SInt 0.

Definition get_mean_confidence_map (classes : list Z) (confidence : list F)
    (class_id_to_label : list (Z * string)) : result (gmap string (scalar F)) :=
  let confidence_map : gmap string (list F) :=
    list_to_map ((λ kv : Z * string, (kv.2, [])) <$> class_id_to_label) in
  confidence_map ← append_confidences class_id_to_label
                     (zip classes confidence) confidence_map;
  mret (mean_or_zero <$> (confidence_map : gmap string (list F))).

(** The confidences of the detections whose class id carries [label],
  in the order of the detections. *)
Definition confidences_of (class_id_to_label : list (Z * string))
    (label : string) (detections : list (Z * F)) : list F :=
  omap (λ det : Z * F,
          match dict_get class_id_to_label det.1 with
          | Ok l => if decide (l = label) then Some det.2 else None
          | Raise _ => None
          end) detections.

(** *** [plot_predictions], lines 105-141 *)

(** What the code reads from an ultralytics [Results] object. *)
Record Results := {
  boxes_xywh : list vec4;         (* result.boxes.xywh *)
  boxes_cls : list F;             (* result.boxes.cls *)
  boxes_conf : list F;            (* result.boxes.conf *)
  names : list (Z * string);      (* result.names *)
  orig_img : Pixels;
  }.

(** Lines 108-137: the image and the two values returned with it. *)
Definition prediction_overlay (result : Results)
    : Py.result (Image * box_group * gmap string (scalar F)) :=
  let boxes := boxes_xywh result in             (* truncated by [.long()] below *)
  let classes := int_of_float <$> boxes_cls result in
  let confidence := boxes_conf result in
  let class_id_to_label := names result in
  mean_confidence_map ← get_mean_confidence_map classes confidence class_id_to_label;
  box_data ← mapM (λ idx,
      b ← index boxes idx;
      c ← index classes idx;
      caption ← dict_get class_id_to_label c;
      x ← index confidence idx;
      mret {| middle := (int_of_float (v0 b), int_of_float (v1 b));
              width := int_of_float (v2 b);
              height := int_of_float (v3 b);
              domain := "pixel";
              class_id := c;
              box_caption := Name caption;
              scores := Some x |})
    (seq 0 (length boxes));
  let predictions := {| box_data := Some box_data;
                        class_labels := Some class_id_to_label |} in
  image ← wandb_Image (FromArray (flip_channels (orig_img result)))
            [("predictions", predictions)];
  mret (image, predictions, mean_confidence_map).

(** [with_table] says whether a table was passed; the result is [inl ()]
  for the table and [inr] for the triple. *)
Definition plot_predictions (result : Results) (with_table : bool)
    : M (unit + Image * box_group * gmap string (scalar F)) :=
  '(image, predictions, mean_confidence_map) ← lift (prediction_overlay result);
  if with_table then
    add_data [CImage image;
              CInt (Z.of_nat (length (default [] (box_data predictions))));
              CMap mean_confidence_map];;
    mret (inl tt)
  else mret (inr (image, predictions, mean_confidence_map)).

(** *** [plot_validation_results], lines 144-180 *)

Variable predictor : string → Py.result (list Results).

(** Lines 154-156: [plot_predictions(predictor(image_path)[0])]. *)
Definition predict (image_path : string)
    : M (unit + Image * box_group * gmap string (scalar F)) :=
  results ← lift (predictor image_path);
  result ← lift (index results 0);
  plot_predictions result false.

(** The body of the [try], lines 158-175; it returns the next row index. *)
Definition frame_block (class_label_map : option (list (Z * string)))
    (epoch : option Z) (batch : Batch) (img_idx : nat) (image_path : string)
    (prediction_box_data : box_group)
    (mean_confidence_map : gmap string (scalar F)) (data_idx : Z) : M Z :=
  ground_truth_data ← get_ground_truth_annotations
                         img_idx image_path batch class_label_map;
  wandb_image ← lift (wandb_Image (FromPath image_path)
    [("ground-truth", {| box_data := ground_truth_data;
                         class_labels := class_label_map |});
     ("predictions", prediction_box_data)]);
  add_data match epoch with
           | None => [CInt data_idx; CImage wandb_image;
                      CMap mean_confidence_map]
           | Some epoch => [CInt epoch; CInt data_idx;
                            CImage wandb_image;
                            CMap mean_confidence_map]
           end;;
  mret (data_idx + 1).

(** The inner loop, lines 153-177; [data_idx] is the running row index. *)
Fixpoint frames_loop (class_label_map : option (list (Z * string)))
    (epoch : option Z) (batch : Batch) (frames : list (nat * string))
    (data_idx : Z) : M Z :=
  match frames with
  | [] => mret data_idx
  | (img_idx, image_path) :: frames =>
      out ← predict image_path;
      match out with
      | inl _ => raise TypeError
      | inr (_, prediction_box_data, mean_confidence_map) =>
          data_idx ← try_except_only TypeError
            (frame_block class_label_map epoch batch img_idx image_path
               prediction_box_data mean_confidence_map data_idx)
            (mret data_idx);
          frames_loop class_label_map epoch batch frames data_idx
      end
  end.

(** [enumerate(l)] *)
Definition enumerate {A} (l : list A) : list (nat * A) := imap pair l.

(** The outer loop, lines 152-179, with its [break]. *)
Fixpoint batches_loop (class_label_map : option (list (Z * string)))
    (epoch : option Z) (dataloader : list Batch) (batch_idx : nat)
    (data_idx : Z) : M unit :=
  match dataloader with
  | [] => mret tt
  | batch :: dataloader =>
      data_idx ← frames_loop class_label_map epoch batch
                   (enumerate (im_file batch)) data_idx;
      if bool_decide (batch_idx + 1 = 1)%nat then mret tt
      else batches_loop class_label_map epoch dataloader (S batch_idx) data_idx
  end.

(** The cell of a row that holds its index: the first one, or the second
    when the row starts with the epoch. *)
Definition row_data_idx (epoch : option Z) (row : list cell) : option cell :=
  row !! (if epoch is Some _ then 1%nat else 0%nat).

(** The table returned is the [table] of the final state. *)
Definition plot_validation_results (dataloader : list Batch)
    (class_label_map : option (list (Z * string))) (epoch : option Z) : M unit :=
  batches_loop class_label_map epoch dataloader 0 0.
End defs.
End BBoxUtils.

(** ** A rational instance for evaluation

    Floats are read as exact rationals, kept in lowest terms so that equal
    numbers are equal terms.  No statement below depends on rounding. *)

Module Rational.

Definition float_of_int (z : Z) : Q := inject_Z z.
Definition fadd (a b : Q) : Q := Qred (a + b).
Definition fsub (a b : Q) : Q := Qred (a - b).
Definition fmul (a b : Q) : Q := Qred (a * b).
Definition fdiv (a b : Q) : Q := Qred (a / b).

(** [int(x)] rounds toward zero. *)
Definition int_of_float (a : Q) : Z := Z.quot (Qnum a) (Z.pos (Qden a)).

Definition fmin (a b : Q) : Q := if Qle_bool a b then a else b.
Definition fmax (a b : Q) : Q := if Qle_bool a b then b else a.
Definition clamp (lo hi a : Q) : Q := fmin (fmax a lo) hi.

Abbreviation vec4 := (@BBoxUtils.vec4 Q).
Abbreviation Vec4 := (@BBoxUtils.Vec4 Q).

Definition half (a : Q) : Q := fdiv a (float_of_int 2).

(** Modelled from the spec: [ops.xywhn2xyxy] of the ultralytics package,
    step 1 of the mapper's algorithm: a normalized centre-width-height
    box becomes corner coordinates in the pixels of the resized image. *)
Definition xywhn2xyxy (box : vec4) (h w : Z) : vec4 :=
  let '(BBoxUtils.Vec4 cx cy bw bh) := box in
  Vec4 (fmul (float_of_int w) (fsub cx (half bw)))
       (fmul (float_of_int h) (fsub cy (half bh)))
       (fmul (float_of_int w) (fadd cx (half bw)))
       (fmul (float_of_int h) (fadd cy (half bh))).

(** Modelled from the spec: [ops.scale_boxes] of the ultralytics package,
    step 2: the padding is taken off, the gain divided out, and the
    corners are clipped to the original image. *)
Definition scale_boxes (img1_shape : list Z) (box : vec4) (img0_shape : list Z)
    (ratio_pad : (Q * Q) * (Q * Q)) : result vec4 :=
  let '((gain, _), (padw, padh)) := ratio_pad in
  let '(BBoxUtils.Vec4 x1 y1 x2 y2) := box in
  h0 ← index img0_shape 0;
  w0 ← index img0_shape 1;
  let fx x := clamp (float_of_int 0) (float_of_int w0) (fdiv (fsub x padw) gain) in
  let fy y := clamp (float_of_int 0) (float_of_int h0) (fdiv (fsub y padh) gain) in
  mret (Vec4 (fx x1) (fy y1) (fx x2) (fy y2)).

(** Modelled from the spec: [ops.xyxy2xywh] of the ultralytics package,
    step 3: corners become centre, width and height. *)
Definition xyxy2xywh (box : vec4) : vec4 :=
  let '(BBoxUtils.Vec4 x1 y1 x2 y2) := box in
  Vec4 (half (fadd x1 x2)) (half (fadd y1 y2)) (fsub x2 x1) (fsub y2 y1).

Definition scale_bounding_box_to_original_image_shape :=
  BBoxUtils.scale_bounding_box_to_original_image_shape
    xywhn2xyxy scale_boxes xyxy2xywh.

Definition get_mean_confidence_map :=
  BBoxUtils.get_mean_confidence_map float_of_int fadd fdiv.

(** [x == int(x)] *)
Definition is_integer (a : Q) : bool := Qeq_bool a (inject_Z (int_of_float a)).

(** A stand-in for [wandb.Image]: the image keeps its arguments and, as
    the SDK does when it validates bounding boxes, a [box_data] that is
    not a list is refused with [TypeError]. *)
Definition Image : Type :=
  @BBoxUtils.image_source unit * list (string * @BBoxUtils.box_group Q).

Definition wandb_Image (src : @BBoxUtils.image_source unit)
    (boxes : list (string * @BBoxUtils.box_group Q)) : result Image :=
  if forallb (λ g, bool_decide (is_Some (BBoxUtils.box_data g.2))) boxes
  then Ok (src, boxes)
  else Raise TypeError.

Definition flip_channels (a : unit) : unit := a.

(** A predictor that detects nothing. *)
Definition predictor (image_path : string)
    : result (list (@BBoxUtils.Results Q unit)) :=
  Ok [ {| BBoxUtils.boxes_xywh := []; BBoxUtils.boxes_cls := [];
          BBoxUtils.boxes_conf := [];
          BBoxUtils.names := [(0, "cat"); (1, "dog")];
          BBoxUtils.orig_img := tt |} ].

Abbreviation state := (@BBoxUtils.state Q Image).

Definition get_ground_truth_annotations
    : nat → string → @BBoxUtils.Batch Q → option (list (Z * string)) →
      SE state (option (list (@BBoxUtils.annotation Q))) :=
  BBoxUtils.get_ground_truth_annotations int_of_float
    xywhn2xyxy scale_boxes xyxy2xywh.

Definition plot_validation_results
    : list (@BBoxUtils.Batch Q) → option (list (Z * string)) → option Z →
      SE state unit :=
  BBoxUtils.plot_validation_results float_of_int fadd fdiv int_of_float
    xywhn2xyxy scale_boxes xyxy2xywh wandb_Image flip_channels predictor.

Definition frames_loop :=
  BBoxUtils.frames_loop float_of_int fadd fdiv int_of_float
    xywhn2xyxy scale_boxes xyxy2xywh wandb_Image flip_channels predictor.

Definition empty_state : state :=
  {| BBoxUtils.table := []; BBoxUtils.wandb := [] |}.

(** The state after the warning for a frame [a.jpg] without boxes. *)
Definition warned : state :=
  {| BBoxUtils.table := [];
     BBoxUtils.wandb := [termwarn "Image: a.jpg has no bounding boxes labels"] |}.

Definition cat_dog : list (Z * string) := [(0, "cat"); (1, "dog")].

(** The annotations of the first frame of [two_frames] below. *)
Definition first_frame_annotations : list (@BBoxUtils.annotation Q) :=
  [ {| BBoxUtils.middle := (5, 5); BBoxUtils.width := 2; BBoxUtils.height := 2;
       BBoxUtils.domain := "pixel"; BBoxUtils.class_id := 0;
       BBoxUtils.box_caption := BBoxUtils.Name "cat";
       BBoxUtils.scores := None |} ].

Definition unit_ratio_pad : (Q * Q) * (Q * Q) := ((1%Q, 1%Q), (0%Q, 0%Q)).

(** Two frames of 10 by 10 pixels with one box each. *)
Definition two_frames : @BBoxUtils.Batch Q :=
  {| BBoxUtils.im_file := ["a.jpg"; "b.jpg"];
     BBoxUtils.batch_idx := [0; 1]%Z;
     BBoxUtils.bboxes := [Vec4 (1 # 2) (1 # 2) (1 # 4) (1 # 4);
                          Vec4 (1 # 2) (1 # 2) (1 # 2) (1 # 2)];
     BBoxUtils.cls := [0; 1]%Z;
     BBoxUtils.ori_shape := [[10; 10]; [10; 10]]%Z;
     BBoxUtils.resized_shape := [[10; 10]; [10; 10]]%Z;
     BBoxUtils.ratio_pad := [unit_ratio_pad; unit_ratio_pad] |}.

(** The same batch, the resized shape of its first frame carrying a
    third entry. *)
Definition bad_first_frame : @BBoxUtils.Batch Q :=
  {| BBoxUtils.im_file := ["a.jpg"; "b.jpg"];
     BBoxUtils.batch_idx := [0; 1]%Z;
     BBoxUtils.bboxes := [Vec4 (1 # 2) (1 # 2) (1 # 4) (1 # 4);
                          Vec4 (1 # 2) (1 # 2) (1 # 2) (1 # 2)];
     BBoxUtils.cls := [0; 1]%Z;
     BBoxUtils.ori_shape := [[10; 10]; [10; 10]]%Z;
     BBoxUtils.resized_shape := [[10; 10; 3]; [10; 10]]%Z;
     BBoxUtils.ratio_pad := [unit_ratio_pad; unit_ratio_pad] |}.

(** One frame, and a box that belongs to another frame. *)
Definition no_box_frame : @BBoxUtils.Batch Q :=
  {| BBoxUtils.im_file := ["a.jpg"];
     BBoxUtils.batch_idx := [1]%Z;
     BBoxUtils.bboxes := [Vec4 (1 # 2) (1 # 2) (1 # 4) (1 # 4)];
     BBoxUtils.cls := [0]%Z;
     BBoxUtils.ori_shape := [[10; 10]]%Z;
     BBoxUtils.resized_shape := [[10; 10]]%Z;
     BBoxUtils.ratio_pad := [unit_ratio_pad] |}.

(** *** Optimizer states for the metrics logger *)

(** A learning rate that is a [tf.Tensor] and that no conversion turns
    into a float, [item()] raising [ValueError] as it does for a tensor of
    more than one element. *)
Definition unconvertible : MetricsLogger.LearningRate Q :=
  {| MetricsLogger.is_tf_tensor := true;
     MetricsLogger.is_torch_tensor := false;
     MetricsLogger.numpy_item := Raise ValueError;
     MetricsLogger.to_cpu_numpy_item := Raise ValueError;
     MetricsLogger.np_array_item := Raise ValueError |}.

Definition keras_optimizer (lr : MetricsLogger.LearningRate Q)
    : MetricsLogger.Optimizer Q :=
  {| MetricsLogger.is_keras_optimizer := true;
     MetricsLogger.learning_rate := Ok lr |}.

Definition tf_unconvertible : MetricsLogger.keras_env Q :=
  {| MetricsLogger.backend := "tensorflow";
     MetricsLogger.model_optimizer := Ok (keras_optimizer unconvertible) |}.

Definition jax_unconvertible : MetricsLogger.keras_env Q :=
  {| MetricsLogger.backend := "jax";
     MetricsLogger.model_optimizer := Ok (keras_optimizer unconvertible) |}.

(** An optimizer that is not a [keras.optimizers.Optimizer]. *)
Definition not_keras_optimizer : MetricsLogger.keras_env Q :=
  {| MetricsLogger.backend := "tensorflow";
     MetricsLogger.model_optimizer :=
       Ok {| MetricsLogger.is_keras_optimizer := false;
             MetricsLogger.learning_rate := Ok unconvertible |} |}.

(** A model without an optimizer: [self.model.optimizer] raises
    [AttributeError]. *)
Definition tf_no_optimizer : MetricsLogger.keras_env Q :=
  {| MetricsLogger.backend := "tensorflow";
     MetricsLogger.model_optimizer := Raise AttributeError |}.

Definition jax_no_optimizer : MetricsLogger.keras_env Q :=
  {| MetricsLogger.backend := "jax";
     MetricsLogger.model_optimizer := Raise AttributeError |}.

(** A Keras optimizer with the learning rate 0.01. *)
Definition fixed_lr : MetricsLogger.keras_env Q :=
  {| MetricsLogger.backend := "torch";
     MetricsLogger.model_optimizer :=
       Ok (keras_optimizer
             {| MetricsLogger.is_tf_tensor := false;
                MetricsLogger.is_torch_tensor := false;
                MetricsLogger.numpy_item := Ok (1 # 100);
                MetricsLogger.to_cpu_numpy_item := Ok (1 # 100);
                MetricsLogger.np_array_item := Ok (1 # 100) |}) |}.

(** A callback logging every [N] batches, before its first batch. *)
Definition every (N : Z) : MetricsLogger.state Q :=
  {| MetricsLogger.self :=
       {| MetricsLogger.logging_batch_wise := true;
          MetricsLogger.log_freq := Some N;
          MetricsLogger.global_batch := 0;
          MetricsLogger.global_step := 0 |};
     MetricsLogger.wandb := [] |}.

(** *** Predictions *)

(** Three predictions, two of them of image 1. *)
Definition three_predictions : list (gmap string Z) :=
  [ {["image_id" := 1; "category_id" := 7]};
    {["image_id" := 2; "category_id" := 7]};
    {["image_id" := 1; "category_id" := 9]} ].

(** A prediction without its image id among two. *)
Definition missing_image_id : list (gmap string Z) :=
  [ {["image_id" := 1; "category_id" := 7]}; {["category_id" := 9]} ].

(** One detected box, of class 0. *)
Definition one_detection : @BBoxUtils.Results Q unit :=
  {| BBoxUtils.boxes_xywh := [Vec4 5%Q 5%Q (5 # 2) (5 # 2)];
     BBoxUtils.boxes_cls := [0%Q];
     BBoxUtils.boxes_conf := [9 # 10];
     BBoxUtils.names := [(0, "cat"); (1, "dog")];
     BBoxUtils.orig_img := tt |}.

(** One detected box, of a class that [names] does not hold. *)
Definition unknown_detection : @BBoxUtils.Results Q unit :=
  {| BBoxUtils.boxes_xywh := [Vec4 5%Q 5%Q (5 # 2) (5 # 2)];
     BBoxUtils.boxes_cls := [5%Q];
     BBoxUtils.boxes_conf := [9 # 10];
     BBoxUtils.names := [(0, "cat"); (1, "dog")];
     BBoxUtils.orig_img := tt |}.

Definition prediction_overlay :=
  BBoxUtils.prediction_overlay float_of_int fadd fdiv int_of_float
    wandb_Image flip_channels.

Definition plot_predictions :=
  BBoxUtils.plot_predictions (Image:=Image) float_of_int fadd fdiv int_of_float
    wandb_Image flip_channels.

Definition frame_block :=
  BBoxUtils.frame_block int_of_float xywhn2xyxy scale_boxes xyxy2xywh
    wandb_Image.

End Rational.

(** The arithmetic mean as the specification has it, on exact numbers:
    the sum of the numbers divided by how many they are. *)
Definition arithmetic_mean (qs : list Q) : Q :=
  (fold_right Qplus 0 qs / inject_Z (Z.of_nat (length qs)))%Q.

(** A reading [value] of the floats as exact numbers under which the
    arithmetic of the floats is exact: an int keeps its value, a sum is
    the sum and a quotient by a number other than zero the quotient. *)
Record exact_arithmetic {F : Type} (float_of_int : Z → F)
    (fadd fdiv : F → F → F) (value : F → Q) : Prop := {
  value_of_int z : (value (float_of_int z) == inject_Z z)%Q;
  value_add a b : (value (fadd a b) == value a + value b)%Q;
  value_div a b :
    ¬ (value b == 0)%Q → (value (fdiv a b) == value a / value b)%Q;
}.

(** The two step axes that [__init__] can register. *)
Definition batch_axis {F} : list (wandb_call F) :=
  [define_metric "batch/batch_step" None;
   define_metric "batch/*" (Some "batch/batch_step")].
Definition epoch_axis {F} : list (wandb_call F) :=
  [define_metric "epoch/epoch" None;
   define_metric "epoch/*" (Some "epoch/epoch")].

(** * Properties *)

(** ** Dictionaries *)

Section dict_facts.
Context {V : Type}.
Implicit Types (d : list (Z * V)) (k : Z).

Lemma dict_get_key d k :
  k ∈ d.*1 → ∃ v, dict_get d k = Ok v ∧ v ∈ d.*2.
Proof.
  induction d as [|[k' v] d IH]; simpl.
  - by intros ?%elem_of_nil.
  - intros Hk. destruct (Z.eqb_spec k' k) as [->|Hne].
    + exists v. split; [done | apply list_elem_of_here].
    + apply elem_of_cons in Hk as [->|Hk]; [done|].
      destruct (IH Hk) as (w & -> & Hw).
      exists w. split; [done | by apply list_elem_of_further].
Qed.

Lemma dict_get_no_key d k : k ∉ d.*1 → dict_get d k = Raise KeyError.
Proof.
  induction d as [|[k' v] d IH]; simpl; [done|].
  intros Hk. destruct (Z.eqb_spec k' k) as [->|Hne].
  - exfalso. apply Hk, list_elem_of_here.
  - apply IH. intros ?. by apply Hk, list_elem_of_further.
Qed.

Lemma dict_get_Ok_value d k v : dict_get d k = Ok v → v ∈ d.*2.
Proof.
  induction d as [|[k' w] d IH]; simpl; [done|].
  destruct (k' =? k).
  - intros [= ->]. apply list_elem_of_here.
  - intros ?. by apply list_elem_of_further, IH.
Qed.
End dict_facts.

(** ** The detection aggregator *)

Section aggregator.
Context {F : Type}.
Variable float_of_int : Z → F.
Variables fadd fdiv : F → F → F.
Implicit Types (d : list (Z * string)) (cm : gmap string (list F)).

Local Abbreviation mean := (BBoxUtils.mean float_of_int fadd fdiv).
Local Abbreviation get_mean_confidence_map :=
  (BBoxUtils.get_mean_confidence_map float_of_int fadd fdiv).

(** The map of empty lists built at line 94. *)
Lemma initial_map_lookup d label :
  (list_to_map ((λ kv : Z * string, (kv.2, [])) <$> d) : gmap string (list F))
    !! label = if decide (label ∈ d.*2) then Some [] else None.
Proof.
  induction d as [|[k v] d IH].
  - rewrite fmap_nil, list_to_map_nil, lookup_empty.
    rewrite decide_False; [done | apply not_elem_of_nil].
  - rewrite !fmap_cons, list_to_map_cons. cbn [fst snd].
    destruct (decide (v = label)) as [->|Hne].
    + rewrite lookup_insert_eq. rewrite decide_True; [done | apply list_elem_of_here].
    + rewrite lookup_insert_ne by done. rewrite IH.
      destruct (decide (label ∈ d.*2)) as [Hin|Hin].
      * rewrite decide_True; [done | by apply list_elem_of_further].
      * rewrite decide_False; [done|].
        intros [->|?]%elem_of_cons; done.
Qed.

(** The loop of lines 95-96 when every class id is a key. *)
Lemma append_confidences_known d detections : ∀ cm,
  Forall (λ det, det.1 ∈ d.*1) detections →
  (∀ label, label ∈ d.*2 → is_Some (cm !! label)) →
  ∃ cm', BBoxUtils.append_confidences d detections cm = Ok cm' ∧
    ∀ label, cm' !! label =
      (λ l, l ++ BBoxUtils.confidences_of d label detections) <$> cm !! label.
Proof.
  induction detections as [|[c x] detections IH]; intros cm Hkeys Hcm; simpl.
  - exists cm. split; [done|]. intros label.
    destruct (cm !! label); simpl; [by rewrite app_nil_r | done].
  - apply Forall_cons in Hkeys as [Hc Hkeys]. simpl in Hc.
    destruct (dict_get_key d c Hc) as (l & Hl & Hin).
    rewrite Hl. simpl. unfold getitem.
    destruct (Hcm l Hin) as [xs Hxs]. rewrite Hxs. simpl.
    destruct (IH (<[l := xs ++ [x]]> cm) Hkeys) as (cm' & -> & Hcm').
    { intros label Hlabel. destruct (decide (l = label)) as [->|].
      - rewrite lookup_insert_eq. eauto.
      - rewrite lookup_insert_ne by done. auto. }
    exists cm'. split; [done|]. intros label. rewrite Hcm'.
    destruct (decide (l = label)) as [->|Hne].
    + rewrite lookup_insert_eq, Hxs. simpl.
      rewrite ?decide_True by done. by rewrite <- app_assoc.
    + rewrite lookup_insert_ne by done. simpl. by rewrite ?decide_False.
Qed.

(** The loop stops with [KeyError] at a class id that is not a key. *)
Lemma append_confidences_unknown d detections : ∀ cm,
  Exists (λ det, det.1 ∉ d.*1) detections →
  BBoxUtils.append_confidences d detections cm = Raise KeyError.
Proof.
  induction detections as [|[c x] detections IH]; intros cm Hbad; simpl.
  - by apply Exists_nil in Hbad.
  - destruct (decide (c ∈ d.*1)) as [Hc|Hc].
    + apply Exists_cons in Hbad as [Hbad|Hbad]; [done|].
      destruct (dict_get_key d c Hc) as (l & -> & _). simpl.
      unfold getitem. destruct (cm !! l); simpl; [by apply IH | done].
    + by rewrite (dict_get_no_key d c Hc).
Qed.

(** The sum that [sum(l)] builds from the left is the sum of the values,
    when the arithmetic is exact. *)
Lemma foldl_fadd_exact value (l : list F) :
  exact_arithmetic float_of_int fadd fdiv value →
  ∀ acc, (value (foldl fadd acc l)
          == value acc + fold_right Qplus 0 (value <$> l))%Q.
Proof.
  intros Hex. induction l as [|x l IH]; intros acc; simpl.
  - ring.
  - rewrite IH, (value_add _ _ _ _ Hex). symmetry. apply Qplus_assoc.
Qed.

(** [sum(l) / len(l)] is the arithmetic mean of the values of a list
    that is not empty, when the arithmetic is exact. *)
Lemma mean_exact value (l : list F) :
  exact_arithmetic float_of_int fadd fdiv value → l ≠ [] →
  (value (mean l) == arithmetic_mean (value <$> l))%Q.
Proof.
  intros Hex Hl. unfold BBoxUtils.mean, BBoxUtils.py_sum, arithmetic_mean.
  assert (¬ (inject_Z (Z.of_nat (length l)) == 0)%Q) as Hlen.
  { destruct l as [|x l]; [done|]. simpl length.
    unfold Qeq. simpl. lia. }
  rewrite (value_div _ _ _ _ Hex); [|by rewrite (value_of_int _ _ _ _ Hex)].
  rewrite foldl_fadd_exact by done.
  rewrite !(value_of_int _ _ _ _ Hex), length_fmap.
  by field.
Qed.

(** C5: when every detection's class id is a key of [class_id_to_label],
    the aggregator returns a map whose keys are exactly the labels of
    [class_id_to_label].  A label without detections gets the int 0.  A
    label with detections gets a float: the sum of its confidences, added
    from the left starting with the int 0, divided by their number; and
    under every reading of the floats as exact numbers for which the
    arithmetic is exact, this float is the arithmetic mean of the
    confidences. *)
Theorem get_mean_confidence_map_spec classes confidence d :
  Forall (λ det, det.1 ∈ d.*1) (zip classes confidence) →
  ∃ result, get_mean_confidence_map classes confidence d = Ok result ∧
    dom result = list_to_set d.*2 ∧
    ∀ label, label ∈ d.*2 →
      let l := BBoxUtils.confidences_of d label (zip classes confidence) in
      (l = [] → result !! label = Some (SInt 0)) ∧
      (l ≠ [] →
       ∃ x, result !! label = Some (SFloat x) ∧
            x = fdiv (foldl fadd (float_of_int 0) l)
                     (float_of_int (Z.of_nat (length l))) ∧
            ∀ value, exact_arithmetic float_of_int fadd fdiv value →
                     (value x == arithmetic_mean (value <$> l))%Q).
Proof.
  intros Hkeys. unfold BBoxUtils.get_mean_confidence_map.
  set (cm0 := list_to_map _).
  destruct (append_confidences_known d (zip classes confidence) cm0 Hkeys)
    as (cm & -> & Hcm).
  { intros label Hlabel. unfold cm0.
    rewrite initial_map_lookup, decide_True by done. eauto. }
  exists (BBoxUtils.mean_or_zero float_of_int fadd fdiv <$> cm).
  split; [done|]. split.
  - apply set_eq. intros label.
    rewrite elem_of_dom, lookup_fmap, Hcm, elem_of_list_to_set.
    unfold cm0. rewrite initial_map_lookup.
    case_decide; simpl; split; try done; try (by eauto); by intros [? ?].
  - intros label Hlabel. cbv zeta. rewrite lookup_fmap, Hcm.
    unfold cm0. rewrite initial_map_lookup, decide_True by done. simpl.
    unfold BBoxUtils.mean_or_zero.
    destruct (BBoxUtils.confidences_of d label (zip classes confidence))
      as [|x l] eqn:Hl; [by split|].
    split; [done|]. intros _. exists (mean (x :: l)).
    split; [done|]. split; [done|].
    intros value Hex. by apply mean_exact.
Qed.

(** C8: a detection whose class id is not a key of [class_id_to_label]
    makes the aggregator raise [KeyError]; no map is returned. *)
Theorem get_mean_confidence_map_unknown_class classes confidence d :
  Exists (λ det, det.1 ∉ d.*1) (zip classes confidence) →
  get_mean_confidence_map classes confidence d = Raise KeyError.
Proof.
  intros Hbad. unfold BBoxUtils.get_mean_confidence_map.
  by rewrite append_confidences_unknown.
Qed.
End aggregator.

(** The scenario of the specification: two detections of class 0. *)
Example get_mean_confidence_map_scenario :
  Rational.get_mean_confidence_map [0; 0] [4 # 10; 6 # 10] [(0, "cat"); (1, "dog")]
  = Ok (<["cat" := SFloat (1 # 2)]> {["dog" := SInt 0]}).
Proof. vm_compute. reflexivity. Qed.

(** The arithmetic mean of the two confidences of the scenario. *)
Example arithmetic_mean_scenario :
  (arithmetic_mean [4 # 10; 6 # 10] == 1 # 2)%Q.
Proof. reflexivity. Qed.

(** The arithmetic of the rational instance is exact, the value of a
    number being the number. *)
Lemma rational_arithmetic_exact :
  exact_arithmetic Rational.float_of_int Rational.fadd Rational.fdiv (λ q, q).
Proof.
  split; unfold Rational.float_of_int, Rational.fadd, Rational.fdiv.
  - reflexivity.
  - intros a b. apply Qred_correct.
  - intros a b _. apply Qred_correct.
Qed.

Lemma get_mean_confidence_map_spec_witness :
  ∃ result,
    Rational.get_mean_confidence_map [0; 0] [4 # 10; 6 # 10] [(0, "cat"); (1, "dog")]
    = Ok result ∧
    dom result = list_to_set [(0, "cat"); (1, "dog")].*2 ∧
    ∀ label, label ∈ [(0, "cat"); (1, "dog")].*2 →
      let l := BBoxUtils.confidences_of [(0, "cat"); (1, "dog")] label
                 (zip [0; 0] [4 # 10; 6 # 10]) in
      (l = [] → result !! label = Some (SInt 0)) ∧
      (l ≠ [] →
       ∃ x, result !! label = Some (SFloat x) ∧
            x = Rational.fdiv (foldl Rational.fadd (Rational.float_of_int 0) l)
                  (Rational.float_of_int (Z.of_nat (length l))) ∧
            ∀ value, exact_arithmetic Rational.float_of_int Rational.fadd
                       Rational.fdiv value →
                     (value x == arithmetic_mean (value <$> l))%Q).
Proof.
  apply (get_mean_confidence_map_spec Rational.float_of_int Rational.fadd
           Rational.fdiv [0; 0] [4 # 10; 6 # 10] [(0, "cat"); (1, "dog")]).
  repeat (apply Forall_cons; split; [apply list_elem_of_here|]).
  apply Forall_nil_2.
Defined.

Lemma get_mean_confidence_map_unknown_class_witness :
  Rational.get_mean_confidence_map [0; 2] [4 # 10; 6 # 10] [(0, "cat"); (1, "dog")]
  = Raise KeyError.
Proof.
  apply (get_mean_confidence_map_unknown_class Rational.float_of_int Rational.fadd
           Rational.fdiv [0; 2] [4 # 10; 6 # 10] [(0, "cat"); (1, "dog")]).
  apply Exists_cons_tl, Exists_cons_hd. simpl.
  intros H. apply elem_of_cons in H as [H|H]; [discriminate H|].
  apply elem_of_cons in H as [H|H]; [discriminate H|].
  by apply elem_of_nil in H.
Defined.

(** ** Running a method body *)

Ltac run_step :=
  unfold mbind, mret, SE_bind, SE_ret, result_bind, result_ret,
         bindM, Py.bind, ret, lift, raise, get, put in *.

Section result_facts.
Context {A B : Type}.

Lemma mapM_result_Ok (f : A → result B) (l : list A) (ys : list B) :
  mapM f l = Ok ys → Forall2 (λ x y, f x = Ok y) l ys.
Proof.
  revert ys. induction l as [|x l IH]; intros ys; simpl.
  - intros [= <-]. constructor.
  - run_step. destruct (f x) as [y|e] eqn:Hy; [|done].
    destruct (mapM f l) as [k|e] eqn:Hk; [|done].
    intros [= <-]. constructor; [done|]. by apply IH.
Qed.
End result_facts.

(** ** Validation plots *)

Section validation.
Context {F Image Pixels : Type}.
Variable float_of_int : Z → F.
Variables fadd fdiv : F → F → F.
Variable int_of_float : F → Z.
Variable xywhn2xyxy : @BBoxUtils.vec4 F → Z → Z → @BBoxUtils.vec4 F.
Variable scale_boxes : list Z → @BBoxUtils.vec4 F → list Z →
                       @BBoxUtils.ratio_pad_t F → result (@BBoxUtils.vec4 F).
Variable xyxy2xywh : @BBoxUtils.vec4 F → @BBoxUtils.vec4 F.
Variable wandb_Image : @BBoxUtils.image_source Pixels →
                       list (string * @BBoxUtils.box_group F) → result Image.
Variable flip_channels : Pixels → Pixels.
Variable predictor : string → result (list (@BBoxUtils.Results F Pixels)).

Local Abbreviation state := (@BBoxUtils.state F Image).
Local Abbreviation mapper :=
  (BBoxUtils.scale_bounding_box_to_original_image_shape
     xywhn2xyxy scale_boxes xyxy2xywh).
Local Abbreviation get_ground_truth_annotations :=
  (BBoxUtils.get_ground_truth_annotations (Image:=Image) int_of_float
     xywhn2xyxy scale_boxes xyxy2xywh).
Local Abbreviation predict :=
  (BBoxUtils.predict float_of_int fadd fdiv int_of_float wandb_Image
     flip_channels predictor).
Local Abbreviation frame_block :=
  (BBoxUtils.frame_block int_of_float xywhn2xyxy scale_boxes xyxy2xywh
     wandb_Image).
Local Abbreviation frames_loop :=
  (BBoxUtils.frames_loop float_of_int fadd fdiv int_of_float
     xywhn2xyxy scale_boxes xyxy2xywh wandb_Image flip_channels predictor).
Local Abbreviation plot_validation_results :=
  (BBoxUtils.plot_validation_results float_of_int fadd fdiv int_of_float
     xywhn2xyxy scale_boxes xyxy2xywh wandb_Image flip_channels predictor).

(** C10: only the first batch of the dataloader is processed: the run
    on a dataloader is the run on its first batch alone, whatever the
    batches that follow. *)
Theorem plot_validation_results_first_batch_only
    batch rest class_label_map epoch (s : state) :
  plot_validation_results (batch :: rest) class_label_map epoch s
  = plot_validation_results [batch] class_label_map epoch s.
Proof.
  unfold BBoxUtils.plot_validation_results. simpl. run_step.
  by destruct (BBoxUtils.frames_loop _ _ _ _ _ _ _ _ _ _ _ _ _ _ _ _) as [[d|e] s'].
Qed.

(** C9: without a class-label map the function raises before the
    zero-box check and warns of nothing; a call that takes the "no
    annotations" path, returning None after the warning, was given a
    map. *)
Theorem get_ground_truth_annotations_needs_map
    img_idx image_path batch (s : state) :
  (∃ e, get_ground_truth_annotations img_idx image_path batch None s
        = (Raise e, s)) ∧
  (∀ class_name_map s',
     get_ground_truth_annotations img_idx image_path batch class_name_map s
     = (Ok None, s') →
     is_Some class_name_map ∧
     s' = {| BBoxUtils.table := BBoxUtils.table s;
             BBoxUtils.wandb := BBoxUtils.wandb s
                                ++ [BBoxUtils.no_labels_warning image_path] |}).
Proof.
  unfold BBoxUtils.get_ground_truth_annotations, BBoxUtils.call. run_step.
  split.
  - destruct (BBoxUtils.select _ (BBoxUtils.bboxes batch)); [|by eauto].
    destruct (BBoxUtils.select _ (BBoxUtils.cls batch)); by eauto.
  - intros class_name_map s'.
    destruct (BBoxUtils.select _ (BBoxUtils.bboxes batch)) as [boxes|]; [|done].
    destruct (BBoxUtils.select _ (BBoxUtils.cls batch)) as [labels|]; [|done].
    destruct class_name_map as [items|]; [|done].
    case_bool_decide.
    + intros [= <-]. by eauto.
    + destruct (match items with [] => _ | _ => _ end); [|done].
      destruct (index (BBoxUtils.ori_shape batch) img_idx); [|done].
      destruct (index (BBoxUtils.resized_shape batch) img_idx); [|done].
      destruct (index (BBoxUtils.ratio_pad batch) img_idx); [|done].
      by destruct (mapM _ _).
Qed.

(** The annotation builder adds no row to the table. *)
Lemma get_ground_truth_annotations_table
    img_idx image_path batch class_name_map (s s' : state) r :
  get_ground_truth_annotations img_idx image_path batch class_name_map s
  = (r, s') → BBoxUtils.table s' = BBoxUtils.table s.
Proof.
  unfold BBoxUtils.get_ground_truth_annotations, BBoxUtils.call. run_step.
  destruct (BBoxUtils.select _ (BBoxUtils.bboxes batch)); [|by intros [= _ <-]].
  destruct (BBoxUtils.select _ (BBoxUtils.cls batch)); [|by intros [= _ <-]].
  destruct class_name_map as [items|]; [|by intros [= _ <-]].
  case_bool_decide; [by intros [= _ <-]|].
  destruct (match items with [] => _ | _ => _ end); [|by intros [= _ <-]].
  destruct (index (BBoxUtils.ori_shape batch) img_idx); [|by intros [= _ <-]].
  destruct (index (BBoxUtils.resized_shape batch) img_idx); [|by intros [= _ <-]].
  destruct (index (BBoxUtils.ratio_pad batch) img_idx); [|by intros [= _ <-]].
  destruct (mapM _ _); by intros [= _ <-].
Qed.

(** A block that raises has added no row. *)
Lemma frame_block_raise_table class_label_map epoch batch img_idx image_path
    prediction_box_data mean_confidence_map data_idx (s s' : state) e :
  frame_block class_label_map epoch batch img_idx image_path
    prediction_box_data mean_confidence_map data_idx s = (Raise e, s') →
  BBoxUtils.table s' = BBoxUtils.table s.
Proof.
  unfold BBoxUtils.frame_block, BBoxUtils.add_data. run_step.
  destruct (BBoxUtils.get_ground_truth_annotations _ _ _ _ _ _ _ _ _)
    as [[gt|e'] s1] eqn:Hgt.
  - apply get_ground_truth_annotations_table in Hgt.
    destruct (wandb_Image _ _); [done|]. by intros [= _ <-].
  - apply get_ground_truth_annotations_table in Hgt. by intros [= _ <-].
Qed.

(** An exception out of the inner loop on the first batch leaves
    [plot_validation_results]. *)
Lemma plot_validation_results_raise batch rest class_label_map epoch
    (s s' : state) e :
  frames_loop class_label_map epoch batch
    (BBoxUtils.enumerate (BBoxUtils.im_file batch)) 0 s = (Raise e, s') →
  plot_validation_results (batch :: rest) class_label_map epoch s = (Raise e, s').
Proof.
  intros H. unfold BBoxUtils.plot_validation_results. simpl. run_step.
  by rewrite H.
Qed.

(** C7, as the code has it: in the loop over the frames of a batch only a
    [TypeError] raised inside the guarded block is caught; the frame is
    then skipped, no row being added, and the loop goes on.  Any other
    exception of the block, and any exception of the prediction step,
    which is outside the block, leaves the loop, and so the pass. *)
Theorem frames_loop_catches_only_TypeError
    class_label_map epoch batch img_idx image_path frames data_idx (s : state) :
  (∀ e s1, predict image_path s = (Raise e, s1) →
     frames_loop class_label_map epoch batch
       ((img_idx, image_path) :: frames) data_idx s = (Raise e, s1)) ∧
  (∀ image predictions mean_confidence_map s1,
     predict image_path s = (Ok (inr (image, predictions, mean_confidence_map)), s1) →
     (∀ s2, frame_block class_label_map epoch batch img_idx image_path
              predictions mean_confidence_map data_idx s1 = (Raise TypeError, s2) →
        BBoxUtils.table s2 = BBoxUtils.table s1 ∧
        frames_loop class_label_map epoch batch
          ((img_idx, image_path) :: frames) data_idx s
        = frames_loop class_label_map epoch batch frames data_idx s2) ∧
     (∀ e s2, e ≠ TypeError →
        frame_block class_label_map epoch batch img_idx image_path
          predictions mean_confidence_map data_idx s1 = (Raise e, s2) →
        frames_loop class_label_map epoch batch
          ((img_idx, image_path) :: frames) data_idx s = (Raise e, s2))).
Proof.
  split.
  - intros e s1 Hp. simpl. run_step. by rewrite Hp.
  - intros image predictions mcm s1 Hp. split.
    + intros s2 Hb. split; [by eapply frame_block_raise_table|].
      simpl. run_step. rewrite Hp. unfold try_except_only.
      by rewrite Hb.
    + intros e s2 He Hb. simpl. run_step. rewrite Hp.
      unfold try_except_only. rewrite Hb. by destruct e.
Qed.
Lemma select_elem {A} (mask : list bool) (t l : list A) x :
  BBoxUtils.select mask t = Ok l → x ∈ l → x ∈ t.
Proof.
  unfold BBoxUtils.select. case_bool_decide; [|done].
  intros [= <-] Hx.
  apply list_elem_of_fmap in Hx as ([b y] & -> & Hy).
  apply list_elem_of_filter in Hy as [_ Hy].
  by apply elem_of_zip_r in Hy.
Qed.

(** The mapper is the composition of the three conversions, nothing
    more. *)
Lemma mapper_Ok box rs os rp out :
  mapper box rs os rp = Ok out →
  ∃ h w scaled,
    BBoxUtils.unpack2 rs = Ok (h, w) ∧
    scale_boxes rs (xywhn2xyxy box h w) os rp = Ok scaled ∧
    out = BBoxUtils.tolist (xyxy2xywh scaled).
Proof.
  unfold BBoxUtils.scale_bounding_box_to_original_image_shape. run_step.
  destruct (BBoxUtils.unpack2 rs) as [[h w]|]; [|done].
  destruct (scale_boxes rs (xywhn2xyxy box h w) os rp) as [scaled|] eqn:Hs; [|done].
  intros [= <-]. by exists h, w, scaled.
Qed.

(** C3, as the code has it: the mapper returns the four values that
    [xyxy2xywh] produces, as they are; they are truncated to integers by
    [get_ground_truth_annotations], which applies [int] to each of them
    when it fills the position of an annotation. *)
Theorem mapper_untruncated_caller_truncates :
  (∀ box rs os rp out,
     mapper box rs os rp = Ok out →
     ∃ h w scaled,
       BBoxUtils.unpack2 rs = Ok (h, w) ∧
       scale_boxes rs (xywhn2xyxy box h w) os rp = Ok scaled ∧
       out = BBoxUtils.tolist (xyxy2xywh scaled)) ∧
  (∀ img_idx image_path batch class_name_map (s s' : state) data,
     get_ground_truth_annotations img_idx image_path batch class_name_map s
     = (Ok (Some data), s') →
     ∃ rs os rp,
       index (BBoxUtils.resized_shape batch) img_idx = Ok rs ∧
       index (BBoxUtils.ori_shape batch) img_idx = Ok os ∧
       index (BBoxUtils.ratio_pad batch) img_idx = Ok rp ∧
       Forall (λ ann, ∃ box out,
                 box ∈ BBoxUtils.bboxes batch ∧
                 mapper box rs os rp = Ok out ∧
                 int_of_float <$> out =
                   [(BBoxUtils.middle ann).1; (BBoxUtils.middle ann).2;
                    BBoxUtils.width ann; BBoxUtils.height ann]) data).
Proof.
  split; [apply mapper_Ok|].
  intros img_idx image_path batch class_name_map s s' data.
  unfold BBoxUtils.get_ground_truth_annotations, BBoxUtils.call. run_step.
  destruct (BBoxUtils.select _ (BBoxUtils.bboxes batch)) as [boxes|] eqn:Hsel; [|done].
  destruct (BBoxUtils.select _ (BBoxUtils.cls batch)) as [ids|]; [|done].
  destruct class_name_map as [items|]; [|done].
  case_bool_decide; [done|].
  destruct (match items with [] => _ | _ => _ end) as [labels|]; [|done].
  destruct (index (BBoxUtils.ori_shape batch) img_idx) as [os|]; [|done].
  destruct (index (BBoxUtils.resized_shape batch) img_idx) as [rs|]; [|done].
  destruct (index (BBoxUtils.ratio_pad batch) img_idx) as [rp|]; [|done].
  destruct (mapM _ _) as [data'|] eqn:Hdata; [|done].
  intros [= <- _]. exists rs, os, rp. repeat split.
  apply mapM_result_Ok in Hdata.
  eapply Forall2_Forall_r; [exact Hdata|].
  apply Forall_forall. intros [box label] Hin ann.
  apply elem_of_zip_l in Hin. apply (select_elem _ _ _ _ Hsel) in Hin.
  destruct (mapper box rs os rp) as [out|] eqn:Hout; [|done].
  destruct (mapper_Ok _ _ _ _ _ Hout) as (h & w & scaled & _ & _ & ->).
  simpl.
  destruct (BBoxUtils.reverse_get _ label); [|done].
  intros [= <-]. exists box, (BBoxUtils.tolist (xyxy2xywh scaled)).
  split; [exact Hin|]. split; [exact Hout | reflexivity].
Qed.
End validation.

(** ** The statements above on concrete batches *)

Section examples.
Import Rational.

Lemma get_ground_truth_annotations_needs_map_witness :
  (∃ e, Rational.get_ground_truth_annotations 0 "a.jpg" no_box_frame None
          empty_state = (Raise e, empty_state)) ∧
  is_Some (Some cat_dog) ∧
  warned = {| BBoxUtils.table := BBoxUtils.table empty_state;
              BBoxUtils.wandb := BBoxUtils.wandb empty_state
                ++ [BBoxUtils.no_labels_warning "a.jpg"] |}.
Proof.
  destruct (get_ground_truth_annotations_needs_map (Image:=Image)
              int_of_float xywhn2xyxy scale_boxes xyxy2xywh
              0 "a.jpg" no_box_frame empty_state) as [Hnone Hwarn].
  split; [exact Hnone|].
  apply (Hwarn (Some cat_dog) warned). vm_compute. reflexivity.
Defined.

(** C3 as stated fails: for a box of a quarter of a 10 by 10 image the
    mapper returns a width and a height of 2.5. *)
Lemma mapper_output_not_integers :
  Rational.scale_bounding_box_to_original_image_shape
    (Vec4 (1 # 2) (1 # 2) (1 # 4) (1 # 4)) [10; 10] [10; 10] unit_ratio_pad
  = Ok [5; 5; 5 # 2; 5 # 2]%Q ∧
  is_integer (5 # 2) = false ∧
  int_of_float (5 # 2) = 2.
Proof. vm_compute. done. Qed.

Lemma mapper_untruncated_caller_truncates_witness :
  ∃ rs os rp,
    index (BBoxUtils.resized_shape two_frames) 0 = Ok rs ∧
    index (BBoxUtils.ori_shape two_frames) 0 = Ok os ∧
    index (BBoxUtils.ratio_pad two_frames) 0 = Ok rp ∧
    Forall (λ ann, ∃ box out,
              box ∈ BBoxUtils.bboxes two_frames ∧
              Rational.scale_bounding_box_to_original_image_shape box rs os rp
              = Ok out ∧
              int_of_float <$> out =
                [(BBoxUtils.middle ann).1; (BBoxUtils.middle ann).2;
                 BBoxUtils.width ann; BBoxUtils.height ann])
      first_frame_annotations.
Proof.
  destruct (mapper_untruncated_caller_truncates (Image:=Image)
              int_of_float xywhn2xyxy scale_boxes xyxy2xywh) as [_ Hcaller].
  apply (Hcaller 0%nat "a.jpg" two_frames (Some cat_dog) empty_state empty_state).
  vm_compute. reflexivity.
Defined.

(** C7 as stated fails: the resized shape of the first frame has three
    entries, unpacking it raises [ValueError], and the pass ends with
    that exception and an empty table; the second frame, which is well
    formed, is never reached.  With a well-formed first frame both
    frames get their row. *)
Lemma plot_validation_results_aborts_on_ValueError :
  (Rational.plot_validation_results [bad_first_frame] (Some cat_dog) None
     empty_state).1 = Raise ValueError ∧
  BBoxUtils.table (Rational.plot_validation_results [bad_first_frame]
                     (Some cat_dog) None empty_state).2 = [] ∧
  (Rational.plot_validation_results [two_frames] (Some cat_dog) None
     empty_state).1 = Ok tt ∧
  length (BBoxUtils.table (Rational.plot_validation_results [two_frames]
                             (Some cat_dog) None empty_state).2) = 2%nat.
Proof. vm_compute. done. Qed.

(** A frame without boxes: the annotations are None, the stand-in for
    [wandb.Image] raises [TypeError], and the frame is skipped. *)
Lemma frames_loop_catches_only_TypeError_witness :
  BBoxUtils.table warned = BBoxUtils.table empty_state ∧
  Rational.frames_loop (Some cat_dog) None no_box_frame [(0%nat, "a.jpg")] 0
    empty_state
  = Rational.frames_loop (Some cat_dog) None no_box_frame [] 0 warned.
Proof.
  destruct (frames_loop_catches_only_TypeError float_of_int fadd fdiv
              int_of_float xywhn2xyxy scale_boxes xyxy2xywh wandb_Image
              flip_channels predictor (Some cat_dog) None no_box_frame
              0%nat "a.jpg" [] 0 empty_state) as [_ Hblock].
  edestruct Hblock as [Hskip _]; [vm_compute; reflexivity|].
  apply Hskip. vm_compute. reflexivity.
Defined.
End examples.

(** ** The metrics logger *)

Section metrics_logger.
Context {F : Type}.
Implicit Types (env : MetricsLogger.keras_env F) (s : MetricsLogger.state F).
Implicit Types (logs : gmap string (scalar F)).

Import MetricsLogger.

(** C4, as the code has it: with a run active the constructor registers
    one step axis, chosen by the granularity, in two [define_metric]
    calls: the batch axis when [log_freq] is "batch" or an integer, the
    epoch axis otherwise.  Without a run it raises and registers
    nothing. *)
Theorem __init___registers_one_axis run_active lf step (calls : list (wandb_call F)) :
  (run_active = false →
   __init__ run_active lf step calls = (Raise WandbError, calls)) ∧
  (run_active = true →
   ∃ self,
     __init__ run_active lf step calls
     = (Ok self, calls ++ if logging_batch_wise self then batch_axis else epoch_axis) ∧
     (logging_batch_wise self = true ↔ lf = LFStr "batch" ∨ ∃ n, lf = LFInt n) ∧
     log_freq self = match lf with
                     | LFInt n => Some n
                     | LFStr s => if decide (s = "batch") then Some 1 else None
                     end ∧
     global_batch self = 0 ∧ global_step self = step).
Proof.
  split; intros ->; [done|]. unfold __init__. simpl.
  destruct lf as [str|n].
  - destruct (decide (str = "batch")) as [->|Hne].
    + rewrite decide_True by done. simpl.
      exists {| logging_batch_wise := true; log_freq := Some 1;
                global_batch := 0; global_step := step |}.
      repeat split; eauto.
    + rewrite decide_False by congruence. simpl.
      exists {| logging_batch_wise := false; log_freq := None;
                global_batch := 0; global_step := step |}.
      repeat split; try done. intros [[= ?]|[? [=]]]. by subst.
  - rewrite decide_False by done. simpl.
    exists {| logging_batch_wise := true; log_freq := Some n;
              global_batch := 0; global_step := step |}.
    repeat split; eauto.
Qed.

(** What a call of [_get_lr] can do to the state: the callback object is
    left as it is, and the only call it can add is the error message,
    which comes with the result None. *)
Lemma _get_lr_effects env s r s' :
  _get_lr env s = (r, s') →
  self s' = self s ∧
  (wandb s' = wandb s ∨
   (r = Ok None ∧ wandb s' = wandb s ++ [unable_to_log_lr])).
Proof.
  unfold _get_lr, try_except, optimizer_learning_rate, call. run_step.
  intros H. repeat case_match; simplify_eq/=; auto.
Qed.

(** The first representation: a Keras optimizer whose learning rate
    converts with [.numpy().item()]. *)
Lemma _get_lr_resolved env s opt lr x :
  model_optimizer env = Ok opt → is_keras_optimizer opt = true →
  learning_rate opt = Ok lr → numpy_item lr = Ok x →
  _get_lr env s = (Ok (Some x), s).
Proof.
  intros Ho Hk Hl Hx. unfold _get_lr, try_except. run_step.
  by rewrite Ho, Hk, Hl, Hx.
Qed.

(** Under the jax backend the handler has its own [try]: nothing is
    raised. *)
Lemma _get_lr_jax_returns env s :
  backend env = "jax" → ∃ lr s', _get_lr env s = (Ok lr, s').
Proof.
  intros Hb. unfold _get_lr, try_except, optimizer_learning_rate, call,
    tf_backend_available, torch_backend_available, jax_backend_available.
  rewrite Hb. run_step. simpl.
  repeat case_match; simplify_eq/=; eauto.
Qed.
(** *** The records *)

#[local] Instance append_inj (prefix : string) : Inj (=) (=) (String.append prefix).
Proof.
  intros x y. induction prefix as [|a prefix IH]; simpl; [done|].
  intros [= H]. by apply IH.
Qed.

Lemma rekey_lookup prefix logs k :
  rekey prefix logs !! (prefix +:+ k) = logs !! k.
Proof. unfold rekey. apply (lookup_kmap (String.append prefix)). Qed.

Lemma rekey_dom prefix logs :
  dom (rekey prefix logs) = set_map (String.append prefix) (dom logs).
Proof. unfold rekey. apply (dom_kmap_L (String.append prefix)). Qed.

Lemma record_dom prefix step_key step lr logs :
  dom (record prefix step_key step lr logs)
  = set_map (String.append prefix) (dom logs) ∪ {[prefix +:+ step_key]}
    ∪ (if lr is Some _ then {[prefix +:+ "learning_rate"]} else ∅).
Proof.
  unfold record, set_lr.
  destruct lr; rewrite ?dom_insert_L, rekey_dom.
  - apply set_eq. intros x. rewrite !elem_of_union. tauto.
  - apply set_eq. intros x. rewrite !elem_of_union, elem_of_empty. tauto.
Qed.

Lemma record_step prefix step_key step lr logs :
  step_key ≠ "learning_rate" →
  record prefix step_key step lr logs !! (prefix +:+ step_key) = Some (SInt step).
Proof.
  intros Hne. unfold record, set_lr. destruct lr.
  - rewrite lookup_insert_ne, lookup_insert_eq; [done|].
    intros ?%(inj (String.append prefix)). done.
  - by rewrite lookup_insert_eq.
Qed.

Lemma record_lr prefix step_key step lr logs :
  step_key ≠ "learning_rate" →
  logs !! "learning_rate" = None →
  record prefix step_key step lr logs !! (prefix +:+ "learning_rate")
  = SFloat <$> lr.
Proof.
  intros Hne Hl. unfold record, set_lr. destruct lr; simpl.
  - by rewrite lookup_insert_eq.
  - rewrite lookup_insert_ne, rekey_lookup; [done|].
    intros ?%(inj (String.append prefix)). done.
Qed.

Lemma record_metric prefix step_key step lr logs k :
  k ≠ step_key → k ≠ "learning_rate" →
  record prefix step_key step lr logs !! (prefix +:+ k) = logs !! k.
Proof.
  intros H1 H2. unfold record, set_lr.
  assert (prefix +:+ step_key ≠ prefix +:+ k)
    by (intros ?%(inj (String.append prefix)); done).
  assert (prefix +:+ "learning_rate" ≠ prefix +:+ k)
    by (intros ?%(inj (String.append prefix)); done).
  destruct lr; rewrite ?lookup_insert_ne by done; apply rekey_lookup.
Qed.

(** *** [on_epoch_end] when the learning rate is resolved or reported
    absent *)
Lemma on_epoch_end_emits env epoch logs s lr s1 :
  _get_lr env s = (Ok lr, s1) →
  on_epoch_end env epoch (Some logs) s
  = (Ok tt, {| self := self s1;
               wandb := wandb s1 ++ [log (record "epoch/" "epoch" epoch lr logs)] |}).
Proof.
  intros Hlr. unfold on_epoch_end, call. run_step. by rewrite Hlr.
Qed.

(** *** [on_batch_end] when the learning rate is resolved or reported
    absent *)

Lemma on_batch_end_epoch_wise env batch (logs : option (gmap string (scalar F))) s :
  logging_batch_wise (self s) = false →
  on_batch_end env batch logs s
  = (Ok tt, {| self := counted (self s); wandb := wandb s |}).
Proof.
  intros Hb. unfold on_batch_end, get_self, set_self, counted. run_step. simpl.
  by rewrite Hb.
Qed.

Lemma on_batch_end_skips env batch (logs : option (gmap string (scalar F))) s N :
  logging_batch_wise (self s) = true → log_freq (self s) = Some N →
  N ≠ 0 → batch mod N ≠ 0 →
  on_batch_end env batch logs s
  = (Ok tt, {| self := counted (self s); wandb := wandb s |}).
Proof.
  intros Hb HN HN0 Hmod. unfold on_batch_end, get_self, set_self, py_mod, counted.
  run_step. simpl. rewrite Hb, HN.
  destruct (Z.eqb_spec N 0); [done|]. by destruct (Z.eqb_spec (batch mod N) 0).
Qed.

Lemma on_batch_end_emits env batch logs s N lr s1 :
  logging_batch_wise (self s) = true → log_freq (self s) = Some N →
  N ≠ 0 → batch mod N = 0 →
  _get_lr env {| self := counted (self s); wandb := wandb s |} = (Ok lr, s1) →
  on_batch_end env batch (Some logs) s
  = (Ok tt,
     {| self := {| logging_batch_wise := true; log_freq := Some N;
                   global_batch := global_batch (self s) + N;
                   global_step := global_step (self s) + 1 |};
        wandb := wandb s1
                 ++ [log (record "batch/" "batch_step" (global_batch (self s))
                            lr logs)] |}).
Proof.
  intros Hb HN HN0 Hmod Hlr.
  destruct (_get_lr_effects _ _ _ _ Hlr) as [Hself _].
  unfold counted in *.
  unfold on_batch_end, get_self, set_self, call, py_mod, py_add.
  run_step. simpl in *. rewrite Hb, HN in *.
  destruct (Z.eqb_spec N 0); [done|]. rewrite Hmod. simpl.
  rewrite Hlr. simpl. rewrite Hself. simpl.
  do 4 f_equal. unfold record. case_bool_decide as He; [|done].
  subst logs. unfold rekey. by rewrite kmap_empty.
Qed.
End metrics_logger.

(** ** The metrics logger on concrete optimizer states *)

Section logger_examples.
Import MetricsLogger Rational.

(** C6, where the code departs from it: under the tensorflow backend a
    learning rate that is a [tf.Tensor] and does not convert makes
    [_get_lr] raise, the handler repeating the conversion that has just
    failed, and so does a model without an optimizer; under the jax
    backend the same states give None and the error message; and an
    optimizer that is not a Keras optimizer gives None without any
    message. *)
Theorem _get_lr_raises_or_stays_silent (s : MetricsLogger.state Q) :
  _get_lr tf_unconvertible s = (Raise ValueError, s) ∧
  _get_lr jax_unconvertible s
  = (Ok None, {| self := self s; wandb := wandb s ++ [unable_to_log_lr] |}) ∧
  _get_lr tf_no_optimizer s = (Raise AttributeError, s) ∧
  _get_lr jax_no_optimizer s
  = (Ok None, {| self := self s; wandb := wandb s ++ [unable_to_log_lr] |}) ∧
  _get_lr not_keras_optimizer s = (Ok None, s).
Proof. by destruct s. Qed.

(** C2, where the code departs from it: when [_get_lr] raises,
    [on_epoch_end] raises with it and no record is logged. *)
Theorem on_epoch_end_raises_without_record epoch logs (s : MetricsLogger.state Q) :
  on_epoch_end tf_unconvertible epoch logs s = (Raise ValueError, s).
Proof. by destruct s. Qed.

(** C1, where the code departs from it: on a batch that is due, when
    [_get_lr] raises, [on_batch_end] raises with it; the step has been
    counted, no record is logged and [global_batch] stays. *)
Theorem on_batch_end_raises_without_record batch logs (s : MetricsLogger.state Q) N :
  logging_batch_wise (self s) = true → log_freq (self s) = Some N →
  1 ≤ N → batch mod N = 0 →
  on_batch_end tf_unconvertible batch logs s
  = (Raise ValueError, {| self := counted (self s); wandb := wandb s |}).
Proof.
  intros Hb HN HN1 Hmod. destruct s as [[bw lf gb gs] calls]. simpl in *.
  subst. unfold on_batch_end, get_self, set_self, py_mod, counted.
  run_step. simpl. destruct (Z.eqb_spec N 0); [lia|]. by rewrite Hmod.
Qed.

Lemma on_batch_end_raises_without_record_witness :
  on_batch_end tf_unconvertible 4 (Some {["loss" := SFloat (1 # 2)]}) (every 2)
  = (Raise ValueError,
     {| self := counted (self (every 2)); wandb := wandb (every 2) |}).
Proof.
  apply (on_batch_end_raises_without_record 4
           (Some {["loss" := SFloat (1 # 2)]}) (every 2) 2);
    [reflexivity | reflexivity | lia | reflexivity].
Defined.

(** The scenario of the specification, the learning rate being reported
    absent. *)
Example on_batch_end_scenario :
  on_batch_end not_keras_optimizer 4 (Some {["loss" := SFloat (1 # 2)]}) (every 2)
  = (Ok tt,
     {| self := {| logging_batch_wise := true; log_freq := Some 2;
                   global_batch := 2; global_step := 1 |};
        wandb := [log (<["batch/loss" := SFloat (1 # 2)]>
                         {["batch/batch_step" := SInt 0]})] |}).
Proof. vm_compute. reflexivity. Qed.

(** C4 as stated fails: an epoch-wise callback registers the epoch axis
    only, a batch-wise one the batch axis only. *)
Lemma __init___registers_a_single_axis :
  (__init__ (F:=Q) true (LFStr "epoch") 0 []).2 = epoch_axis ∧
  (__init__ (F:=Q) true (LFInt 2) 0 []).2 = batch_axis ∧
  batch_axis (F:=Q) ≠ epoch_axis ∧
  ¬ (define_metric "batch/batch_step" None
       ∈ (__init__ (F:=Q) true (LFStr "epoch") 0 []).2).
Proof.
  repeat split; try done. simpl.
  intros H. apply elem_of_cons in H as [H|H]; [done|].
  apply elem_of_cons in H as [H|H]; [done|]. by apply elem_of_nil in H.
Qed.

Lemma __init___registers_one_axis_witness :
  ∃ self,
    __init__ (F:=Q) true (LFStr "batch") 7 []
    = (Ok self, [] ++ if logging_batch_wise self then batch_axis else epoch_axis) ∧
    (logging_batch_wise self = true ↔
       LFStr "batch" = LFStr "batch" ∨ ∃ n, LFStr "batch" = LFInt n) ∧
    log_freq self = Some 1 ∧
    global_batch self = 0 ∧ global_step self = 7.
Proof.
  apply (proj2 (__init___registers_one_axis (F:=Q) true (LFStr "batch") 7 [])).
  reflexivity.
Defined.
End logger_examples.

(** ** Grouping predictions by image *)

Section metadata_map.
Context `{Countable V}.
Implicit Types (prediction : gmap string V) (preds : list (gmap string V)).
Implicit Types (m : gmap V (list (gmap string V))).

Lemma metadata_loop_groups preds : ∀ m,
  Forall (λ prediction, is_Some (prediction !! "image_id")) preds →
  ∃ m', BBoxUtils.metadata_loop preds m = Ok m' ∧
    ∀ id, m' !! id = BBoxUtils.extended (m !! id) (BBoxUtils.predictions_of id preds).
Proof.
  induction preds as [|p preds IH]; intros m Hids; simpl.
  - exists m. split; [done|]. intros id. unfold BBoxUtils.extended.
    destruct (m !! id); simpl; [by rewrite app_nil_r | done].
  - apply Forall_cons in Hids as [[i Hi] Hids].
    unfold getitem. rewrite Hi. simpl.
    set (m1 := match m !! i with Some _ => m | None => <[i := []]> m end).
    assert (m1 !! i = Some (default [] (m !! i))) as Hm1.
    { unfold m1. destruct (m !! i) eqn:Hmi; simpl; [done|].
      by rewrite lookup_insert_eq. }
    rewrite Hm1. simpl.
    destruct (IH (<[i := default [] (m !! i) ++ [p]]> m1) Hids) as (m' & -> & Hm').
    exists m'. split; [done|]. intros id. rewrite Hm'.
    unfold BBoxUtils.predictions_of. rewrite filter_cons.
    destruct (decide (i = id)) as [->|Hne].
    + rewrite lookup_insert_eq. rewrite decide_True by done.
      unfold BBoxUtils.extended. destruct (m !! id); simpl; [|done].
      by rewrite <- app_assoc.
    + rewrite lookup_insert_ne by done.
      rewrite decide_False by congruence.
      replace (m1 !! id) with (m !! id); [done|].
      unfold m1. destruct (m !! i); [done|]. by rewrite lookup_insert_ne.
Qed.

(** The map groups the predictions: an image id that occurs has the list
    of its predictions, in their order, and an id that does not occur is
    not a key. *)
Theorem create_prediction_metadata_map_groups preds :
  Forall (λ prediction, is_Some (prediction !! "image_id")) preds →
  ∃ m, BBoxUtils.create_prediction_metadata_map preds = Ok m ∧
    ∀ id, m !! id = match BBoxUtils.predictions_of id preds with
                    | [] => None
                    | l => Some l
                    end.
Proof.
  intros Hids. unfold BBoxUtils.create_prediction_metadata_map.
  destruct (metadata_loop_groups preds ∅ Hids) as (m & -> & Hm).
  exists m. split; [done|]. intros id. rewrite Hm, lookup_empty. unfold BBoxUtils.extended.
  by destruct (BBoxUtils.predictions_of id preds).
Qed.

(** A prediction without the key ["image_id"] makes the function raise
    [KeyError]: no map is returned. *)
Theorem create_prediction_metadata_map_missing_id preds :
  Exists (λ prediction, prediction !! "image_id" = None) preds →
  BBoxUtils.create_prediction_metadata_map preds = Raise KeyError.
Proof.
  unfold BBoxUtils.create_prediction_metadata_map. generalize (∅ : gmap V (list (gmap string V))).
  induction preds as [|p preds IH]; intros m Hbad; simpl.
  - by apply Exists_nil in Hbad.
  - unfold getitem. destruct (p !! "image_id") as [i|] eqn:Hi; simpl; [|done].
    apply Exists_cons in Hbad as [Hbad|Hbad]; [congruence|].
    set (m1 := match m !! i with Some _ => m | None => <[i := []]> m end).
    destruct (m1 !! i); simpl; [by apply IH | done].
Qed.
End metadata_map.

(** ** More on the metrics logger *)

Section metrics_logger_effects.
Context {F : Type}.
Implicit Types (env : MetricsLogger.keras_env F) (s : MetricsLogger.state F).

Import MetricsLogger.

(** [_get_lr] leaves the callback as it is, and the only call it can make
    is the error message, which comes with the result None. *)
Theorem _get_lr_frame env s :
  self (_get_lr env s).2 = self s ∧
  (wandb (_get_lr env s).2 = wandb s ∨
   ((_get_lr env s).1 = Ok None ∧
    wandb (_get_lr env s).2 = wandb s ++ [unable_to_log_lr])).
Proof.
  destruct (_get_lr env s) as [r s'] eqn:Hlr.
  exact (_get_lr_effects env s r s' Hlr).
Qed.

(** Outside the tensorflow and torch backends [_get_lr] raises nothing. *)
Theorem _get_lr_returns_off_tf_torch env s :
  backend env ≠ "tensorflow" → backend env ≠ "torch" →
  ∃ lr, (_get_lr env s).1 = Ok lr.
Proof.
  intros Htf Htorch.
  unfold _get_lr, try_except, optimizer_learning_rate, call,
    tf_backend_available, torch_backend_available, jax_backend_available.
  rewrite !bool_decide_eq_false_2 by done. run_step.
  repeat case_match; simplify_eq/=; eauto.
Qed.

(** Whatever a call of [on_batch_end] does, and also when it raises: the
    step is counted once, the granularity is kept, the trace of [wandb]
    calls only grows, and [global_batch] either stays or, on a batch that
    is due and after a record has been logged, grows by [log_freq]. *)
Lemma on_batch_end_step env batch (logs : option (gmap string (scalar F))) s :
  let r := (on_batch_end env batch logs s).1 in
  let s' := (on_batch_end env batch logs s).2 in
  global_step (self s') = global_step (self s) + 1 ∧
  logging_batch_wise (self s') = logging_batch_wise (self s) ∧
  log_freq (self s') = log_freq (self s) ∧
  (∃ more, wandb s' = wandb s ++ more) ∧
  (global_batch (self s') = global_batch (self s) ∨
   (r = Ok tt ∧ logging_batch_wise (self s) = true ∧
    ∃ N rec, log_freq (self s) = Some N ∧ batch mod N = 0 ∧
      global_batch (self s') = global_batch (self s) + N ∧
      last (wandb s') = Some (log rec) ∧
      rec !! "batch/batch_step" = Some (SInt (global_batch (self s))))).
Proof.
  unfold on_batch_end, get_self, set_self, call, py_mod, py_add.
  run_step. simpl.
  destruct (logging_batch_wise (self s)) eqn:Hb; simpl;
    [|repeat split; [by exists [] ; rewrite app_nil_r | by left]].
  destruct (log_freq (self s)) as [N|] eqn:HN; simpl;
    [|repeat split; [by exists [] ; rewrite app_nil_r | by left]].
  destruct (Z.eqb_spec N 0); simpl;
    [repeat split; [by exists [] ; rewrite app_nil_r | by left]|].
  destruct (Z.eqb_spec (batch mod N) 0) as [Hmod|]; simpl;
    [|repeat split; [by exists [] ; rewrite app_nil_r | by left]].
  match goal with |- context [_get_lr env ?st] => set (s0 := st) end.
  destruct (_get_lr env s0) as [[lr|e] s1] eqn:Hlr;
    destruct (_get_lr_effects _ _ _ _ Hlr) as [Hself Hcalls]; simpl.
  - rewrite Hself. simpl.
    repeat split.
    + destruct Hcalls as [->|[_ ->]]; simpl; eexists;
        [done | by rewrite <- app_assoc].
    + right. repeat split. eexists N, _. repeat split; try done.
      * by rewrite last_snoc.
      * unfold set_lr. destruct lr; [|by rewrite lookup_insert_eq].
        by rewrite lookup_insert_ne, lookup_insert_eq.
  - rewrite Hself. simpl. repeat split; [|by left].
    destruct Hcalls as [->|[[=] _]]. simpl. exists []. by rewrite app_nil_r.
Qed.

(** Whatever a call of [on_epoch_end] does: the counters of the callback
    are untouched; when it returns, exactly one record has been logged,
    last, after at most the error message of [_get_lr], and it carries
    the epoch; when it raises, nothing has been logged. *)
Lemma on_epoch_end_step env epoch (logs : option (gmap string (scalar F))) s :
  let r := (on_epoch_end env epoch logs s).1 in
  let s' := (on_epoch_end env epoch logs s).2 in
  self s' = self s ∧
  match r with
  | Ok _ => ∃ pre rec, wandb s' = wandb s ++ pre ++ [log rec] ∧
              (pre = [] ∨ pre = [unable_to_log_lr]) ∧
              rec !! "epoch/epoch" = Some (SInt epoch)
  | Raise _ => wandb s' = wandb s
  end.
Proof.
  unfold on_epoch_end, call. run_step.
  destruct (_get_lr env s) as [[lr|e] s1] eqn:Hlr;
    destruct (_get_lr_effects _ _ _ _ Hlr) as [Hself Hcalls]; simpl.
  - split; [done|].
    assert (∀ m : gmap string (scalar F),
              set_lr "epoch/learning_rate" lr (<["epoch/epoch" := SInt epoch]> m)
              !! "epoch/epoch" = Some (SInt epoch)) as Hrec.
    { intros m. unfold set_lr. destruct lr; [|by rewrite lookup_insert_eq].
      by rewrite lookup_insert_ne, lookup_insert_eq. }
    destruct Hcalls as [->|[_ ->]].
    + exists []. eexists. split; [done|]. split; [by left | apply Hrec].
    + exists [unable_to_log_lr]. eexists. rewrite <- app_assoc.
      split; [done|]. split; [by right | apply Hrec].
  - split; [done|]. by destruct Hcalls as [->|[[=] _]].
Qed.
(** Whatever a call of [on_batch_end] does, and also when it raises: the
    step is counted once, the granularity is kept, the trace of [wandb]
    calls only grows, and [global_batch] either stays or, on a batch that
    is due and after a record has been logged, grows by [log_freq]. *)
Theorem on_batch_end_counters env batch (logs : option (gmap string (scalar F))) s :
  let r := (on_batch_end env batch logs s).1 in
  let s' := (on_batch_end env batch logs s).2 in
  global_step (self s') = global_step (self s) + 1 ∧
  logging_batch_wise (self s') = logging_batch_wise (self s) ∧
  log_freq (self s') = log_freq (self s) ∧
  (∃ more, wandb s' = wandb s ++ more) ∧
  (global_batch (self s') = global_batch (self s) ∨
   (r = Ok tt ∧ logging_batch_wise (self s) = true ∧
    ∃ N rec, log_freq (self s) = Some N ∧ batch mod N = 0 ∧
      global_batch (self s') = global_batch (self s) + N ∧
      last (wandb s') = Some (log rec) ∧
      rec !! "batch/batch_step" = Some (SInt (global_batch (self s))))).
Proof. apply on_batch_end_step. Qed.

(** Whatever a call of [on_epoch_end] does: the counters of the callback
    are untouched; when it returns, exactly one record has been logged,
    last, after at most the error message of [_get_lr], and it carries
    the epoch; when it raises, nothing has been logged. *)
Theorem on_epoch_end_frame env epoch (logs : option (gmap string (scalar F))) s :
  let r := (on_epoch_end env epoch logs s).1 in
  let s' := (on_epoch_end env epoch logs s).2 in
  self s' = self s ∧
  match r with
  | Ok _ => ∃ pre rec, wandb s' = wandb s ++ pre ++ [log rec] ∧
              (pre = [] ∨ pre = [unable_to_log_lr]) ∧
              rec !! "epoch/epoch" = Some (SInt epoch)
  | Raise _ => wandb s' = wandb s
  end.
Proof. apply on_epoch_end_step. Qed.

(** [on_train_batch_end] is [on_batch_end]: absent and empty metrics are
    treated alike by both. *)
Theorem on_train_batch_end_is_on_batch_end env batch
    (logs : option (gmap string (scalar F))) s :
  on_train_batch_end env batch logs s = on_batch_end env batch logs s.
Proof.
  unfold on_train_batch_end. destruct logs as [l|].
  - case_bool_decide; [by subst|done].
  - unfold on_batch_end. by rewrite bool_decide_eq_true_2.
Qed.

Lemma on_train_batch_end_step env batch (logs : option (gmap string (scalar F))) s :
  (on_train_batch_end env batch logs s).2 = (on_batch_end env batch logs s).2.
Proof.
  unfold on_train_batch_end. destruct logs as [l|].
  - case_bool_decide; [by subst|done].
  - unfold on_batch_end. by rewrite bool_decide_eq_true_2.
Qed.

(** Along any sequence of calls, raising ones included: [global_step] has
    advanced by the number of batch events, the granularity is the one the
    callback started with, [global_batch] has advanced by [log_freq] at
    most once per batch event, and no call of the trace has been taken
    back. *)
Theorem callback_counters s0 n s :
  after s0 n s →
  global_step (self s) = global_step (self s0) + Z.of_nat n ∧
  logging_batch_wise (self s) = logging_batch_wise (self s0) ∧
  log_freq (self s) = log_freq (self s0) ∧
  (∃ k : nat, (k ≤ n)%nat ∧
     global_batch (self s)
     = global_batch (self s0) + default 0 (log_freq (self s0)) * Z.of_nat k) ∧
  (∃ more, wandb s = wandb s0 ++ more).
Proof.
  assert (∀ n s env batch logs,
    (global_step (self s) = global_step (self s0) + Z.of_nat n ∧
     logging_batch_wise (self s) = logging_batch_wise (self s0) ∧
     log_freq (self s) = log_freq (self s0) ∧
     (∃ k : nat, (k ≤ n)%nat ∧
        global_batch (self s)
        = global_batch (self s0) + default 0 (log_freq (self s0)) * Z.of_nat k) ∧
     (∃ more, wandb s = wandb s0 ++ more)) →
    let s' := (on_batch_end env batch logs s).2 in
    global_step (self s') = global_step (self s0) + Z.of_nat (S n) ∧
    logging_batch_wise (self s') = logging_batch_wise (self s0) ∧
    log_freq (self s') = log_freq (self s0) ∧
    (∃ k : nat, (k ≤ S n)%nat ∧
       global_batch (self s')
       = global_batch (self s0) + default 0 (log_freq (self s0)) * Z.of_nat k) ∧
    (∃ more, wandb s' = wandb s0 ++ more)) as Hbatch.
  { intros m t env batch logs (Hstep & Hbw & Hfreq & (k & Hk & Hgb) & (more & Hmore)).
    destruct (on_batch_end_step env batch logs t)
      as (Hstep' & Hbw' & Hfreq' & (more' & Hmore') & Hgb').
    cbv zeta in *. repeat split.
    - rewrite Hstep', Hstep. lia.
    - congruence.
    - congruence.
    - destruct Hgb' as [Hgb'|(_ & _ & N & rec & HN & _ & Hgb' & _)].
      + exists k. split; [lia|congruence].
      + exists (S k). split; [lia|].
        rewrite Hgb', Hgb, <- Hfreq, HN. simpl. lia.
    - exists (more ++ more'). by rewrite Hmore', Hmore, <- app_assoc. }
  induction 1 as [|m t env epoch logs _ IH|m t env batch logs _ IH
                  |m t env batch logs _ IH].
  - repeat split; [lia | | by exists []; rewrite app_nil_r].
    exists 0%nat. split; [lia|]. lia.
  - destruct IH as (Hstep & Hbw & Hfreq & (k & Hk & Hgb) & (more & Hmore)).
    destruct (on_epoch_end_step env epoch logs t) as [Hself Hcalls].
    cbv zeta in *. rewrite Hself. repeat split; try done.
    + by exists k.
    + destruct (on_epoch_end env epoch logs t).1.
      * destruct Hcalls as (pre & rec & -> & _). rewrite Hmore.
        exists (more ++ pre ++ [log rec]). by rewrite <- app_assoc.
      * rewrite Hcalls. by exists more.
  - by apply Hbatch.
  - rewrite on_train_batch_end_step. by apply Hbatch.
Qed.

(** The constructor accepts [log_freq=0]; every batch event then counts
    its step and raises [ZeroDivisionError]. *)
Theorem log_freq_zero_raises_at_every_batch env batch
    (logs : option (gmap string (scalar F))) step (calls : list (wandb_call F)) :
  ∃ l calls',
    __init__ true (LFInt 0) step calls = (Ok l, calls') ∧
    on_batch_end env batch logs {| self := l; wandb := calls' |}
    = (Raise ZeroDivisionError, {| self := counted l; wandb := calls' |}).
Proof. eexists _, _. split; reflexivity. Qed.

(** A callback built with a string that is not "batch", be it "epoch" or
    any other, logs no batch record: a batch event counts its step and
    makes no [wandb] call. *)
Theorem epoch_wise_callback_logs_no_batch name env batch
    (logs : option (gmap string (scalar F))) step (calls : list (wandb_call F)) :
  name ≠ "batch" →
  ∃ l,
    __init__ true (LFStr name) step calls = (Ok l, calls ++ epoch_axis) ∧
    on_batch_end env batch logs {| self := l; wandb := calls ++ epoch_axis |}
    = (Ok tt, {| self := counted l; wandb := calls ++ epoch_axis |}).
Proof.
  intros Hne. unfold __init__. simpl.
  rewrite decide_False by congruence. simpl. eexists. split; reflexivity.
Qed.
(** When [_get_lr] returns, [on_epoch_end] logs one record: its keys are
    the metric names under "epoch/", "epoch/epoch" and, with a learning
    rate, "epoch/learning_rate"; the epoch and the learning rate are the
    values of their keys, and every metric not named "epoch" or
    "learning_rate" keeps its value. *)
Theorem on_epoch_end_record env epoch (logs : gmap string (scalar F)) s lr s1 :
  _get_lr env s = (Ok lr, s1) →
  ∃ rec,
    on_epoch_end env epoch (Some logs) s
    = (Ok tt, {| self := self s; wandb := wandb s1 ++ [log rec] |}) ∧
    dom rec = set_map (String.append "epoch/") (dom logs) ∪ {["epoch/epoch"]}
              ∪ (if lr is Some _ then {["epoch/learning_rate"]} else ∅) ∧
    rec !! "epoch/epoch" = Some (SInt epoch) ∧
    (∀ x, lr = Some x → rec !! "epoch/learning_rate" = Some (SFloat x)) ∧
    (∀ k, k ≠ "epoch" → k ≠ "learning_rate" →
          rec !! ("epoch/" +:+ k) = logs !! k).
Proof.
  intros Hlr. exists (record "epoch/" "epoch" epoch lr logs).
  destruct (_get_lr_effects _ _ _ _ Hlr) as [Hself _].
  rewrite (on_epoch_end_emits env epoch logs s lr s1 Hlr), Hself.
  split; [done|]. split; [apply record_dom|].
  split; [by apply record_step|]. split.
  - intros x ->. unfold record, set_lr. by rewrite lookup_insert_eq.
  - intros k. apply record_metric.
Qed.

(** When [_get_lr] returns, a batch that is due logs one record and
    moves [global_batch] by [log_freq]: the keys of the record are the
    metric names under "batch/", "batch/batch_step" and, with a learning
    rate, "batch/learning_rate"; the step is the value [global_batch] had,
    and every metric not named "batch_step" or "learning_rate" keeps its
    value. *)
Theorem on_batch_end_record env batch (logs : gmap string (scalar F)) s N lr s1 :
  logging_batch_wise (self s) = true → log_freq (self s) = Some N →
  N ≠ 0 → batch mod N = 0 →
  _get_lr env {| self := counted (self s); wandb := wandb s |} = (Ok lr, s1) →
  ∃ rec,
    on_batch_end env batch (Some logs) s
    = (Ok tt,
       {| self := {| logging_batch_wise := true; log_freq := Some N;
                     global_batch := global_batch (self s) + N;
                     global_step := global_step (self s) + 1 |};
          wandb := wandb s1 ++ [log rec] |}) ∧
    dom rec = set_map (String.append "batch/") (dom logs) ∪ {["batch/batch_step"]}
              ∪ (if lr is Some _ then {["batch/learning_rate"]} else ∅) ∧
    rec !! "batch/batch_step" = Some (SInt (global_batch (self s))) ∧
    (∀ x, lr = Some x → rec !! "batch/learning_rate" = Some (SFloat x)) ∧
    (∀ k, k ≠ "batch_step" → k ≠ "learning_rate" →
          rec !! ("batch/" +:+ k) = logs !! k).
Proof.
  intros Hb HN HN0 Hmod Hlr.
  exists (record "batch/" "batch_step" (global_batch (self s)) lr logs).
  rewrite (on_batch_end_emits env batch logs s N lr s1 Hb HN HN0 Hmod Hlr).
  split; [done|]. split; [apply record_dom|].
  split; [by apply record_step|]. split.
  - intros x ->. unfold record, set_lr. by rewrite lookup_insert_eq.
  - intros k. apply record_metric.
Qed.

(** A batch that is not due logs nothing and leaves [global_batch]; only
    the step is counted. *)
Theorem on_batch_end_not_due env batch (logs : option (gmap string (scalar F))) s N :
  logging_batch_wise (self s) = true → log_freq (self s) = Some N →
  N ≠ 0 → batch mod N ≠ 0 →
  on_batch_end env batch logs s
  = (Ok tt, {| self := counted (self s); wandb := wandb s |}).
Proof. apply on_batch_end_skips. Qed.

(** A callback built with "batch" logs at every batch event, whatever the
    batch index: it is the callback built with 1. *)
Theorem batch_callback_logs_every_batch env batch (logs : gmap string (scalar F))
    step (calls : list (wandb_call F)) lr s1 :
  let l := {| logging_batch_wise := true; log_freq := Some 1;
              global_batch := 0; global_step := step |} in
  _get_lr env {| self := counted l; wandb := calls ++ batch_axis |} = (Ok lr, s1) →
  __init__ true (LFStr "batch") step calls = (Ok l, calls ++ batch_axis) ∧
  __init__ true (LFInt 1) step calls = (Ok l, calls ++ batch_axis) ∧
  on_batch_end env batch (Some logs) {| self := l; wandb := calls ++ batch_axis |}
  = (Ok tt,
     {| self := {| logging_batch_wise := true; log_freq := Some 1;
                   global_batch := 1; global_step := step + 1 |};
        wandb := wandb s1 ++ [log (record "batch/" "batch_step" 0 lr logs)] |}).
Proof.
  intros l Hlr. split; [done|]. split; [done|].
  apply (on_batch_end_emits env batch logs
           {| self := l; wandb := calls ++ batch_axis |} 1 lr s1);
    [done | done | done | apply Z.mod_1_r | exact Hlr].
Qed.
End metrics_logger_effects.

(** ** More on the ground-truth annotations *)

Section reverse_dict_facts.
Implicit Types (d : list (Z * string)).

Lemma dict_get_elem d k v : dict_get d k = Ok v → (k, v) ∈ d.
Proof.
  induction d as [|[k' w] d IH]; simpl; [done|].
  destruct (Z.eqb_spec k' k) as [->|].
  - intros [= ->]. apply list_elem_of_here.
  - intros ?. by apply list_elem_of_further, IH.
Qed.

Lemma reverse_dict_other d name : ∀ m : gmap string Z,
  name ∉ d.*2 → foldl (λ m kv, <[kv.2 := kv.1]> m) m d !! name = m !! name.
Proof.
  induction d as [|[k v] d IH]; intros m Hname; simpl; [done|].
  rewrite fmap_cons in Hname. apply not_elem_of_cons in Hname as [Hne Hname].
  rewrite IH by done. by rewrite lookup_insert_ne.
Qed.

(** Reversing a map whose names are all different gives back, for each
    name, the class id it belongs to. *)
Lemma reverse_dict_round_trip d k name :
  NoDup d.*2 → (k, name) ∈ d → BBoxUtils.reverse_dict d !! name = Some k.
Proof.
  unfold BBoxUtils.reverse_dict. generalize (∅ : gmap string Z).
  induction d as [|[k' v] d IH]; intros m Hnd Hin; simpl.
  - by apply elem_of_nil in Hin.
  - rewrite fmap_cons in Hnd. apply NoDup_cons in Hnd as [Hv Hnd].
    apply elem_of_cons in Hin as [[= -> ->]|Hin].
    + rewrite reverse_dict_other by done. by rewrite lookup_insert_eq.
    + by apply IH.
Qed.
End reverse_dict_facts.

Section select_facts.
Context {A B : Type}.

Lemma select_length_mask (mask : list bool) : ∀ (t : list A) l,
  BBoxUtils.select mask t = Ok l →
  length l = length (filter (λ b, b = true) mask).
Proof.
  unfold BBoxUtils.select. intros t l. case_bool_decide as Hlen; [|done].
  intros [= <-]. rewrite length_fmap.
  revert t Hlen. induction mask as [|b mask IH]; intros [|x t] Hlen;
    simpl in *; try done.
  rewrite !filter_cons. simpl. injection Hlen as Hlen.
  destruct b; simpl.
  - rewrite ?decide_True by done. simpl. by rewrite (IH t).
  - rewrite ?decide_False by done. by rewrite (IH t).
Qed.
End select_facts.

Section annotations.
Context {F Image : Type}.
Variable int_of_float : F → Z.
Variable xywhn2xyxy : @BBoxUtils.vec4 F → Z → Z → @BBoxUtils.vec4 F.
Variable scale_boxes : list Z → @BBoxUtils.vec4 F → list Z →
                       @BBoxUtils.ratio_pad_t F → result (@BBoxUtils.vec4 F).
Variable xyxy2xywh : @BBoxUtils.vec4 F → @BBoxUtils.vec4 F.

Local Abbreviation state := (@BBoxUtils.state F Image).
Local Abbreviation get_ground_truth_annotations :=
  (BBoxUtils.get_ground_truth_annotations (Image:=Image) int_of_float
     xywhn2xyxy scale_boxes xyxy2xywh).

(** The boxes of a frame are those whose entry of [batch_idx] is the
    index of the frame. *)
Local Abbreviation frame_mask img_idx batch :=
  ((λ b, bool_decide (b = Z.of_nat img_idx)) <$> BBoxUtils.batch_idx batch).

(** The function returns None only for a frame without boxes, after one
    warning; in every other case, raising included, it makes no [wandb]
    call and leaves the table alone. *)
Theorem get_ground_truth_annotations_effects
    img_idx image_path batch class_name_map (s : state) :
  let r := (get_ground_truth_annotations img_idx image_path batch class_name_map s).1 in
  let s' := (get_ground_truth_annotations img_idx image_path batch class_name_map s).2 in
  (r ≠ Ok None ∧ s' = s) ∨
  (r = Ok None ∧
   BBoxUtils.select (frame_mask img_idx batch) (BBoxUtils.bboxes batch) = Ok [] ∧
   s' = {| BBoxUtils.table := BBoxUtils.table s;
           BBoxUtils.wandb := BBoxUtils.wandb s
                              ++ [BBoxUtils.no_labels_warning image_path] |}).
Proof.
  unfold BBoxUtils.get_ground_truth_annotations, BBoxUtils.call. run_step.
  destruct (BBoxUtils.select _ (BBoxUtils.bboxes batch)) as [boxes|]; [|by left].
  destruct (BBoxUtils.select _ (BBoxUtils.cls batch)) as [ids|]; [|by left].
  destruct class_name_map as [items|]; [|by left].
  case_bool_decide as Hlen.
  - right. by destruct boxes.
  - destruct (match items with [] => _ | _ => _ end); [|by left].
    destruct (index (BBoxUtils.ori_shape batch) img_idx); [|by left].
    destruct (index (BBoxUtils.resized_shape batch) img_idx); [|by left].
    destruct (index (BBoxUtils.ratio_pad batch) img_idx); [|by left].
    destruct (mapM _ _); by left.
Qed.

(** With an empty class map the function never returns annotations: a
    frame with boxes ends in an exception, the labels staying raw class
    ids that the reversed map, empty too, does not hold. *)
Lemma empty_map_no_annotations img_idx image_path batch (s : state) data :
  (get_ground_truth_annotations img_idx image_path batch (Some []) s).1
  ≠ Ok (Some data).
Proof.
  unfold BBoxUtils.get_ground_truth_annotations, BBoxUtils.call. run_step.
  destruct (BBoxUtils.select _ (BBoxUtils.bboxes batch)) as [boxes|] eqn:Hb; [|done].
  destruct (BBoxUtils.select _ (BBoxUtils.cls batch)) as [ids|] eqn:Hc; [|done].
  case_bool_decide as Hlen; [done|].
  apply select_length_mask in Hb, Hc.
  destruct boxes as [|box boxes]; [done|].
  destruct ids as [|c ids]; [simpl in *; congruence|].
  destruct (index (BBoxUtils.ori_shape batch) img_idx) as [os|]; [|done].
  destruct (index (BBoxUtils.resized_shape batch) img_idx) as [rs|]; [|done].
  destruct (index (BBoxUtils.ratio_pad batch) img_idx) as [rp|]; [|done].
  simpl.
  destruct (BBoxUtils.scale_bounding_box_to_original_image_shape _ _ _ box rs os rp)
    as [out|] eqn:Hout; [|done].
  destruct (mapper_Ok _ _ _ _ _ _ _ _ Hout) as (h & w & scaled & _ & _ & ->).
  done.
Qed.
(** With an empty class map the function never returns annotations: a
    frame with boxes ends in an exception, the labels staying raw class
    ids that the reversed map, empty too, does not hold. *)
Theorem get_ground_truth_annotations_empty_map
    img_idx image_path batch (s : state) :
  let r := (get_ground_truth_annotations img_idx image_path batch (Some []) s).1 in
  r = Ok None ∨ ∃ e, r = Raise e.
Proof.
  pose proof (empty_map_no_annotations img_idx image_path batch s) as Hno.
  cbv zeta.
  destruct (get_ground_truth_annotations img_idx image_path batch (Some []) s).1
    as [[data|]|e]; [by destruct (Hno data) | by left | by eauto].
Qed.

(** When the names of the class map are all different, the annotations
    returned are one per box of the frame, in the order of the boxes, and
    each carries the class id of its box and, as caption, the name of
    that class: going through the name and the reversed map gives the
    class id back. *)
Theorem get_ground_truth_annotations_labels
    img_idx image_path batch items (s s' : state) data :
  NoDup items.*2 →
  get_ground_truth_annotations img_idx image_path batch (Some items) s
  = (Ok (Some data), s') →
  ∃ boxes ids,
    BBoxUtils.select (frame_mask img_idx batch) (BBoxUtils.bboxes batch) = Ok boxes ∧
    BBoxUtils.select (frame_mask img_idx batch) (BBoxUtils.cls batch) = Ok ids ∧
    length data = length boxes ∧
    Forall2 (λ ann c,
               BBoxUtils.class_id ann = c ∧
               (∃ name, dict_get items c = Ok name ∧
                        BBoxUtils.box_caption ann = BBoxUtils.Name name) ∧
               BBoxUtils.domain ann = "pixel" ∧
               BBoxUtils.scores ann = None) data ids.
Proof.
  intros Hnd Hrun. destruct (decide (items = [])) as [->|Hitems].
  { exfalso. eapply empty_map_no_annotations. by rewrite Hrun. }
  revert Hrun.
  unfold BBoxUtils.get_ground_truth_annotations, BBoxUtils.call. run_step.
  destruct (BBoxUtils.select _ (BBoxUtils.bboxes batch)) as [boxes|] eqn:Hb; [|done].
  destruct (BBoxUtils.select _ (BBoxUtils.cls batch)) as [ids|] eqn:Hc; [|done].
  case_bool_decide as Hlen; [done|].
  destruct items as [|it items']; [done|].
  remember (it :: items') as items eqn:Hitems'.
  destruct (mapM _ ids) as [labels|] eqn:Hlab; [|done].
  destruct (index (BBoxUtils.ori_shape batch) img_idx) as [os|]; [|done].
  destruct (index (BBoxUtils.resized_shape batch) img_idx) as [rs|]; [|done].
  destruct (index (BBoxUtils.ratio_pad batch) img_idx) as [rp|]; [|done].
  destruct (mapM _ (zip boxes labels)) as [data'|] eqn:Hdata; [|done].
  intros [= <- _]. exists boxes, ids. split; [done|]. split; [done|].
  apply mapM_result_Ok in Hlab, Hdata.
  pose proof (select_length_mask _ _ _ Hb) as Hlb.
  pose proof (select_length_mask _ _ _ Hc) as Hlc.
  pose proof (Forall2_length _ _ _ Hlab) as Hll.
  pose proof (Forall2_length _ _ _ Hdata) as Hld.
  rewrite length_zip_with in Hld.
  split; [lia|].
  apply Forall2_same_length_lookup_2; [lia|].
  intros i ann c Hann Hci.
  destruct (Forall2_lookup_l _ _ _ _ _ Hlab Hci) as (lab & Hlabi & Hg).
  destruct (lookup_lt_is_Some_2 boxes i) as [box Hbox].
  { apply lookup_lt_Some in Hci. lia. }
  assert (zip boxes labels !! i = Some (box, lab)) as Hzip.
  { rewrite lookup_zip_with, Hbox, Hlabi. done. }
  pose proof (Forall2_lookup_lr _ _ _ _ _ _ Hdata Hzip Hann) as Hf.
  simpl in Hf. cbv beta in Hg. run_step.
  destruct (dict_get items c) as [name|] eqn:Hname; [|done].
  injection Hg as <-.
  destruct (BBoxUtils.scale_bounding_box_to_original_image_shape _ _ _ box rs os rp)
    as [out|] eqn:Hout; [|done].
  destruct (mapper_Ok _ _ _ _ _ _ _ _ Hout) as (h & w & scaled & _ & _ & ->).
  simpl in Hf. unfold getitem in Hf.
  rewrite (reverse_dict_round_trip items c name Hnd (dict_get_elem _ _ _ Hname)) in Hf.
  injection Hf as <-. simpl. repeat split; eauto.
Qed.
End annotations.

(** ** The rows of the validation table *)

Section validation_rows.
Context {F Image Pixels : Type}.
Variable float_of_int : Z → F.
Variables fadd fdiv : F → F → F.
Variable int_of_float : F → Z.
Variable xywhn2xyxy : @BBoxUtils.vec4 F → Z → Z → @BBoxUtils.vec4 F.
Variable scale_boxes : list Z → @BBoxUtils.vec4 F → list Z →
                       @BBoxUtils.ratio_pad_t F → result (@BBoxUtils.vec4 F).
Variable xyxy2xywh : @BBoxUtils.vec4 F → @BBoxUtils.vec4 F.
Variable wandb_Image : @BBoxUtils.image_source Pixels →
                       list (string * @BBoxUtils.box_group F) → result Image.
Variable flip_channels : Pixels → Pixels.
Variable predictor : string → result (list (@BBoxUtils.Results F Pixels)).

Local Abbreviation state := (@BBoxUtils.state F Image).
Local Abbreviation predict :=
  (BBoxUtils.predict float_of_int fadd fdiv int_of_float wandb_Image
     flip_channels predictor).
Local Abbreviation plot_predictions :=
  (BBoxUtils.plot_predictions float_of_int fadd fdiv int_of_float wandb_Image
     flip_channels).
Local Abbreviation frame_block :=
  (BBoxUtils.frame_block int_of_float xywhn2xyxy scale_boxes xyxy2xywh
     wandb_Image).
Local Abbreviation frames_loop :=
  (BBoxUtils.frames_loop float_of_int fadd fdiv int_of_float
     xywhn2xyxy scale_boxes xyxy2xywh wandb_Image flip_channels predictor).
Local Abbreviation plot_validation_results :=
  (BBoxUtils.plot_validation_results float_of_int fadd fdiv int_of_float
     xywhn2xyxy scale_boxes xyxy2xywh wandb_Image flip_channels predictor).

(** The prediction step of the validation loop touches neither the table
    nor the trace. *)
Lemma predict_state image_path (s s' : state) r :
  predict image_path s = (r, s') → s' = s.
Proof.
  unfold BBoxUtils.predict, BBoxUtils.plot_predictions. run_step.
  destruct (predictor image_path) as [results|]; [|by intros [= _ <-]].
  destruct (index results 0) as [result|]; [|by intros [= _ <-]].
  destruct (BBoxUtils.prediction_overlay _ _ _ _ _ _ result) as [[[i p] m]|];
    by intros [= _ <-].
Qed.

(** A block that returns has added one row, which holds the index it was
    given, and returns the next index. *)
Lemma frame_block_Ok class_label_map epoch batch img_idx image_path
    predictions mean_confidence_map data_idx (s s' : state) next :
  frame_block class_label_map epoch batch img_idx image_path
    predictions mean_confidence_map data_idx s = (Ok next, s') →
  next = data_idx + 1 ∧
  ∃ row, BBoxUtils.table s' = BBoxUtils.table s ++ [row] ∧
         BBoxUtils.row_data_idx epoch row = Some (BBoxUtils.CInt data_idx).
Proof.
  unfold BBoxUtils.frame_block, BBoxUtils.add_data. run_step.
  destruct (BBoxUtils.get_ground_truth_annotations _ _ _ _ _ _ _ _ _)
    as [[gt|e'] s1] eqn:Hgt; [|done].
  apply get_ground_truth_annotations_table in Hgt.
  destruct (wandb_Image _ _); [|done].
  intros [= <- <-]. simpl. rewrite Hgt. split; [done|].
  eexists. split; [done|]. by destruct epoch.
Qed.
(** The rows that the inner loop adds, whether it returns or raises:
    at most one per frame, numbered from the index the loop starts
    with. *)
Lemma frames_loop_rows class_label_map epoch batch frames : ∀ d (s : state),
  ∃ rows,
    BBoxUtils.table (frames_loop class_label_map epoch batch frames d s).2
    = BBoxUtils.table s ++ rows ∧
    (length rows ≤ length frames)%nat ∧
    (∀ i row, rows !! i = Some row →
       BBoxUtils.row_data_idx epoch row = Some (BBoxUtils.CInt (d + Z.of_nat i))) ∧
    (∀ d', (frames_loop class_label_map epoch batch frames d s).1 = Ok d' →
       d' = d + Z.of_nat (length rows)).
Proof.
  induction frames as [|[img_idx image_path] frames IH]; intros d s.
  - exists []. simpl. rewrite app_nil_r.
    split; [done|]. split; [lia|]. split; [done|].
    run_step. intros d' [= <-]. lia.
  - assert (∃ rows : list (list (@BBoxUtils.cell F Image)),
              BBoxUtils.table s = BBoxUtils.table s ++ rows ∧
              (length rows ≤ length ((img_idx, image_path) :: frames))%nat ∧
              (∀ i row, rows !! i = Some row →
                 BBoxUtils.row_data_idx epoch row
                 = Some (BBoxUtils.CInt (d + Z.of_nat i)))) as Hnone.
    { exists []. rewrite app_nil_r.
      split; [done|]. split; [simpl; lia | done]. }
    simpl. run_step.
    destruct (predict image_path s) as [[[?|[[image predictions] mcm]]|e] s1] eqn:Hp;
      apply predict_state in Hp as ->.
    + destruct Hnone as (rows & ? & ? & ?). exists rows. by repeat split.
    + unfold try_except_only.
      destruct (frame_block class_label_map epoch batch img_idx image_path
                  predictions mcm d s) as [[next|e] s2] eqn:Hb.
      * apply frame_block_Ok in Hb as (-> & row & Ht & Hrow).
        destruct (IH (d + 1) s2) as (rows & Hrows & Hlen & Hidx & Hret).
        exists (row :: rows). repeat split.
        -- rewrite Hrows, Ht. by rewrite <- app_assoc.
        -- simpl. lia.
        -- intros [|i] row' Hi; simpl in Hi.
           ++ injection Hi as <-. rewrite Hrow. do 2 f_equal. lia.
           ++ rewrite (Hidx i row' Hi). do 2 f_equal. lia.
        -- intros d' Hd'. rewrite (Hret d' Hd'). simpl. lia.
      * pose proof (frame_block_raise_table _ _ _ _ _ _ _ _ _ _ _ _ _ _ _ _ Hb) as Ht.
        destruct (exn_eqb e TypeError).
        -- destruct (IH d s2) as (rows & Hrows & Hlen & Hidx & Hret).
           exists rows. repeat split; [congruence | simpl; lia | done | done].
        -- destruct Hnone as (rows & Hr & ? & ?). exists rows.
           simpl. rewrite Ht. by repeat split.
    + destruct Hnone as (rows & ? & ? & ?). exists rows. by repeat split.
Qed.

(** The rows of a validation pass, whether it returns or raises: the
    table only grows, by at most one row per image of the first batch,
    and the rows added are numbered 0, 1, 2, ... in their index cell, a
    skipped frame using up no number. *)
Theorem plot_validation_results_rows dataloader class_label_map epoch (s : state) :
  ∃ rows,
    BBoxUtils.table (plot_validation_results dataloader class_label_map epoch s).2
    = BBoxUtils.table s ++ rows ∧
    (length rows ≤ match dataloader with
                   | [] => 0
                   | batch :: _ => length (BBoxUtils.im_file batch)
                   end)%nat ∧
    (∀ i row, rows !! i = Some row →
       BBoxUtils.row_data_idx epoch row = Some (BBoxUtils.CInt (Z.of_nat i))).
Proof.
  unfold BBoxUtils.plot_validation_results.
  destruct dataloader as [|batch rest]; simpl.
  - exists []. rewrite app_nil_r. by repeat split.
  - destruct (frames_loop_rows class_label_map epoch batch
                (BBoxUtils.enumerate (BBoxUtils.im_file batch)) 0 s)
      as (rows & Hrows & Hlen & Hidx & _).
    exists rows. run_step.
    destruct (BBoxUtils.frames_loop _ _ _ _ _ _ _ _ _ _ _ _ _ _ _ _)
      as [[d|e] s']; simpl in *; repeat split; try done.
    + unfold BBoxUtils.enumerate in Hlen. by rewrite length_imap in Hlen.
    + unfold BBoxUtils.enumerate in Hlen. by rewrite length_imap in Hlen.
Qed.
Lemma select_none {A} (mask : list bool) (t : list A) :
  length mask = length t → Forall (λ b, b = false) mask →
  BBoxUtils.select mask t = Ok [].
Proof.
  intros Hlen Hmask. unfold BBoxUtils.select.
  rewrite bool_decide_eq_true_2 by done. f_equal.
  revert t Hlen. induction Hmask as [|b mask -> _ IH]; intros [|x t] Hlen;
    simpl in *; try done.
  rewrite filter_cons. simpl. rewrite ?decide_False by done.
  apply IH. congruence.
Qed.

(** A frame without boxes gets no row, provided [wandb.Image] refuses, as
    the SDK does, a [box_data] that is None with [TypeError]: the
    annotations are None, the warning is issued, the image is refused and
    the [except] clause passes on; the row index is not used up. *)
Theorem unlabelled_frame_is_skipped items epoch batch img_idx image_path
    predictions mean_confidence_map data_idx (s : state) :
  (∀ src groups, Exists (λ g, BBoxUtils.box_data g.2 = None) groups →
                 wandb_Image src groups = Raise TypeError) →
  length (BBoxUtils.bboxes batch) = length (BBoxUtils.batch_idx batch) →
  length (BBoxUtils.cls batch) = length (BBoxUtils.batch_idx batch) →
  Forall (λ b, b ≠ Z.of_nat img_idx) (BBoxUtils.batch_idx batch) →
  try_except_only TypeError
    (frame_block (Some items) epoch batch img_idx image_path
       predictions mean_confidence_map data_idx)
    (mret data_idx) s
  = (Ok data_idx,
     {| BBoxUtils.table := BBoxUtils.table s;
        BBoxUtils.wandb := BBoxUtils.wandb s
                           ++ [BBoxUtils.no_labels_warning image_path] |}).
Proof.
  intros Himage Hlb Hlc Hidx.
  assert (∀ A (t : list A), length t = length (BBoxUtils.batch_idx batch) →
            BBoxUtils.select
              ((λ b, bool_decide (b = Z.of_nat img_idx)) <$> BBoxUtils.batch_idx batch) t
            = Ok []) as Hsel.
  { intros A t Ht. apply select_none; [by rewrite length_fmap|].
    apply Forall_fmap. eapply Forall_impl; [exact Hidx|].
    intros b Hb. simpl. by apply bool_decide_eq_false_2. }
  unfold try_except_only, BBoxUtils.frame_block,
    BBoxUtils.get_ground_truth_annotations, BBoxUtils.call, BBoxUtils.add_data.
  run_step. rewrite !Hsel by done. simpl.
  rewrite Himage; [done|]. by apply Exists_cons_hd.
Qed.

(** What [plot_predictions] builds when it succeeds: one overlay box per
    detected box, each with a class id of [result.names], the name of
    that class as caption, and a confidence; the legend is
    [result.names], and the confidence map is the aggregate of the
    detections. *)
Theorem prediction_overlay_boxes result image predictions mean_confidence_map :
  BBoxUtils.prediction_overlay float_of_int fadd fdiv int_of_float
    wandb_Image flip_channels result
  = Ok (image, predictions, mean_confidence_map) →
  ∃ box_data,
    BBoxUtils.box_data predictions = Some box_data ∧
    BBoxUtils.class_labels predictions = Some (BBoxUtils.names result) ∧
    length box_data = length (BBoxUtils.boxes_xywh result) ∧
    Forall (λ ann,
              (∃ name, dict_get (BBoxUtils.names result) (BBoxUtils.class_id ann)
                       = Ok name ∧
                       BBoxUtils.box_caption ann = BBoxUtils.Name name) ∧
              is_Some (BBoxUtils.scores ann) ∧
              BBoxUtils.domain ann = "pixel") box_data ∧
    BBoxUtils.get_mean_confidence_map float_of_int fadd fdiv
      (int_of_float <$> BBoxUtils.boxes_cls result)
      (BBoxUtils.boxes_conf result) (BBoxUtils.names result)
    = Ok mean_confidence_map.
Proof.
  unfold BBoxUtils.prediction_overlay. run_step.
  destruct (BBoxUtils.get_mean_confidence_map _ _ _ _ _ _) as [mcm|]; [|done].
  destruct (mapM _ _) as [bd|] eqn:Hbd; [|done].
  destruct (wandb_Image _ _) as [img|]; [|done].
  intros [= <- <- <-]. exists bd. simpl.
  apply mapM_result_Ok in Hbd.
  split; [done|]. split; [done|]. split.
  - apply Forall2_length in Hbd. by rewrite length_seq in Hbd.
  - split; [|done].
    eapply Forall2_Forall_r; [exact Hbd|].
    apply Forall_forall. intros idx _ ann. run_step.
    destruct (index (BBoxUtils.boxes_xywh result) idx); [|done].
    destruct (index (int_of_float <$> BBoxUtils.boxes_cls result) idx) as [c|]; [|done].
    destruct (dict_get (BBoxUtils.names result) c) as [name|] eqn:Hname; [|done].
    destruct (index (BBoxUtils.boxes_conf result) idx); [|done].
    intros [= <-]. simpl. eauto.
Qed.

(** A detection whose class id is not in [result.names] makes
    [plot_predictions] raise [KeyError] before any image is built or any
    row added. *)
Theorem plot_predictions_unknown_class result with_table (s : state) :
  Exists (λ det, det.1 ∉ (BBoxUtils.names result).*1)
    (zip (int_of_float <$> BBoxUtils.boxes_cls result) (BBoxUtils.boxes_conf result)) →
  plot_predictions result with_table s = (Raise KeyError, s).
Proof.
  intros Hbad.
  unfold BBoxUtils.plot_predictions, BBoxUtils.prediction_overlay,
    BBoxUtils.get_mean_confidence_map.
  run_step. by rewrite append_confidences_unknown.
Qed.
End validation_rows.

(** ** More on the aggregator and the mapper *)

Section aggregator_edges.
Context {F : Type}.
Variable float_of_int : Z → F.
Variables fadd fdiv : F → F → F.

Local Abbreviation get_mean_confidence_map :=
  (BBoxUtils.get_mean_confidence_map float_of_int fadd fdiv).

(** Only as many detections count as the shorter of the two lists has:
    the class ids and the confidences beyond it are ignored, an unknown
    class id among them included. *)
Theorem get_mean_confidence_map_ignores_surplus classes confidence d :
  get_mean_confidence_map (take (length confidence) classes) confidence d
  = get_mean_confidence_map classes confidence d ∧
  get_mean_confidence_map classes (take (length classes) confidence) d
  = get_mean_confidence_map classes confidence d.
Proof.
  unfold BBoxUtils.get_mean_confidence_map.
  by rewrite zip_with_take_l, zip_with_take_r.
Qed.
End aggregator_edges.

Section mapper_edges.
Context {F : Type}.
Variable xywhn2xyxy : @BBoxUtils.vec4 F → Z → Z → @BBoxUtils.vec4 F.
Variable scale_boxes : list Z → @BBoxUtils.vec4 F → list Z →
                       @BBoxUtils.ratio_pad_t F → result (@BBoxUtils.vec4 F).
Variable xyxy2xywh : @BBoxUtils.vec4 F → @BBoxUtils.vec4 F.

(** The mapper unpacks the resized shape into height and width first: a
    shape that has not exactly two entries raises [ValueError] whatever
    the box; and a result, when there is one, has four entries. *)
Theorem mapper_shape_and_arity box rs os rp :
  (length rs ≠ 2%nat →
   BBoxUtils.scale_bounding_box_to_original_image_shape
     xywhn2xyxy scale_boxes xyxy2xywh box rs os rp = Raise ValueError) ∧
  (∀ out,
     BBoxUtils.scale_bounding_box_to_original_image_shape
       xywhn2xyxy scale_boxes xyxy2xywh box rs os rp = Ok out →
     length rs = 2%nat ∧ length out = 4%nat).
Proof.
  unfold BBoxUtils.scale_bounding_box_to_original_image_shape. run_step.
  destruct rs as [|h [|w [|x rs]]]; simpl; split; try done.
  intros out. destruct (scale_boxes _ _ _ _); [|done]. by intros [= <-].
Qed.
End mapper_edges.

(** ** The further statements on concrete inputs *)

Section more_examples.
Import Rational.

Lemma create_prediction_metadata_map_groups_witness :
  ∃ m, BBoxUtils.create_prediction_metadata_map three_predictions = Ok m ∧
    ∀ id, m !! id = match BBoxUtils.predictions_of id three_predictions with
                    | [] => None
                    | l => Some l
                    end.
Proof.
  apply (create_prediction_metadata_map_groups three_predictions).
  repeat (apply Forall_cons; split; [eexists; reflexivity|]).
  apply Forall_nil_2.
Defined.

Lemma create_prediction_metadata_map_missing_id_witness :
  BBoxUtils.create_prediction_metadata_map missing_image_id = Raise KeyError.
Proof.
  apply (create_prediction_metadata_map_missing_id missing_image_id).
  apply Exists_cons_tl, Exists_cons_hd. reflexivity.
Defined.

Lemma _get_lr_returns_off_tf_torch_witness :
  ∃ lr, (MetricsLogger._get_lr jax_unconvertible (every 2)).1 = Ok lr.
Proof.
  apply (_get_lr_returns_off_tf_torch jax_unconvertible (every 2)); discriminate.
Defined.

Lemma callback_counters_witness :
  let s := (MetricsLogger.on_batch_end not_keras_optimizer 4 None (every 2)).2 in
  MetricsLogger.global_step (MetricsLogger.self s)
  = MetricsLogger.global_step (MetricsLogger.self (every 2)) + Z.of_nat 1 ∧
  MetricsLogger.logging_batch_wise (MetricsLogger.self s)
  = MetricsLogger.logging_batch_wise (MetricsLogger.self (every 2)) ∧
  MetricsLogger.log_freq (MetricsLogger.self s)
  = MetricsLogger.log_freq (MetricsLogger.self (every 2)) ∧
  (∃ k : nat, (k ≤ 1)%nat ∧
     MetricsLogger.global_batch (MetricsLogger.self s)
     = MetricsLogger.global_batch (MetricsLogger.self (every 2))
       + default 0 (MetricsLogger.log_freq (MetricsLogger.self (every 2)))
         * Z.of_nat k) ∧
  (∃ more, MetricsLogger.wandb s = MetricsLogger.wandb (every 2) ++ more).
Proof.
  apply (callback_counters (every 2) 1).
  apply MetricsLogger.after_batch, MetricsLogger.after_none.
Defined.

Lemma epoch_wise_callback_logs_no_batch_witness :
  ∃ l,
    MetricsLogger.__init__ (F:=Q) true (MetricsLogger.LFStr "epoch") 0 []
    = (Ok l, [] ++ epoch_axis) ∧
    MetricsLogger.on_batch_end fixed_lr 0 None
      {| MetricsLogger.self := l; MetricsLogger.wandb := [] ++ epoch_axis |}
    = (Ok tt, {| MetricsLogger.self := MetricsLogger.counted l;
                 MetricsLogger.wandb := [] ++ epoch_axis |}).
Proof.
  apply (epoch_wise_callback_logs_no_batch "epoch" fixed_lr 0 None 0 []).
  discriminate.
Defined.
Lemma on_epoch_end_record_witness :
  ∃ rec,
    MetricsLogger.on_epoch_end fixed_lr 3 (Some {["loss" := SFloat (1 # 2)]}) (every 2)
    = (Ok tt, {| MetricsLogger.self := MetricsLogger.self (every 2);
                 MetricsLogger.wandb := MetricsLogger.wandb (every 2) ++ [log rec] |}) ∧
    dom rec = set_map (String.append "epoch/") (dom ({["loss" := SFloat (1 # 2)]}
                                                     : gmap string (scalar Q)))
              ∪ {["epoch/epoch"]}
              ∪ (if Some (1 # 100) is Some _ then {["epoch/learning_rate"]} else ∅) ∧
    rec !! "epoch/epoch" = Some (SInt 3) ∧
    (∀ x, Some (1 # 100) = Some x → rec !! "epoch/learning_rate" = Some (SFloat x)) ∧
    (∀ k, k ≠ "epoch" → k ≠ "learning_rate" →
          rec !! ("epoch/" +:+ k)
          = ({["loss" := SFloat (1 # 2)]} : gmap string (scalar Q)) !! k).
Proof.
  apply (on_epoch_end_record fixed_lr 3 {["loss" := SFloat (1 # 2)]} (every 2)
           (Some (1 # 100)) (every 2)).
  reflexivity.
Defined.

Lemma on_batch_end_record_witness :
  ∃ rec,
    MetricsLogger.on_batch_end fixed_lr 4 (Some {["loss" := SFloat (1 # 2)]}) (every 2)
    = (Ok tt,
       {| MetricsLogger.self :=
            {| MetricsLogger.logging_batch_wise := true;
               MetricsLogger.log_freq := Some 2;
               MetricsLogger.global_batch := 0 + 2;
               MetricsLogger.global_step := 0 + 1 |};
          MetricsLogger.wandb := [] ++ [log rec] |}) ∧
    dom rec = set_map (String.append "batch/") (dom ({["loss" := SFloat (1 # 2)]}
                                                     : gmap string (scalar Q)))
              ∪ {["batch/batch_step"]}
              ∪ (if Some (1 # 100) is Some _ then {["batch/learning_rate"]} else ∅) ∧
    rec !! "batch/batch_step" = Some (SInt 0) ∧
    (∀ x, Some (1 # 100) = Some x → rec !! "batch/learning_rate" = Some (SFloat x)) ∧
    (∀ k, k ≠ "batch_step" → k ≠ "learning_rate" →
          rec !! ("batch/" +:+ k)
          = ({["loss" := SFloat (1 # 2)]} : gmap string (scalar Q)) !! k).
Proof.
  apply (on_batch_end_record fixed_lr 4 {["loss" := SFloat (1 # 2)]} (every 2) 2
           (Some (1 # 100))
           {| MetricsLogger.self := MetricsLogger.counted (MetricsLogger.self (every 2));
              MetricsLogger.wandb := [] |});
    [reflexivity | reflexivity | discriminate | reflexivity | reflexivity].
Defined.

Lemma on_batch_end_not_due_witness :
  MetricsLogger.on_batch_end tf_unconvertible 3 None (every 2)
  = (Ok tt, {| MetricsLogger.self := MetricsLogger.counted (MetricsLogger.self (every 2));
               MetricsLogger.wandb := MetricsLogger.wandb (every 2) |}).
Proof.
  apply (on_batch_end_not_due tf_unconvertible 3 None (every 2) 2);
    [reflexivity | reflexivity | discriminate | discriminate].
Defined.

Lemma batch_callback_logs_every_batch_witness :
  MetricsLogger.__init__ (F:=Q) true (MetricsLogger.LFStr "batch") 0 []
  = (Ok {| MetricsLogger.logging_batch_wise := true; MetricsLogger.log_freq := Some 1;
           MetricsLogger.global_batch := 0; MetricsLogger.global_step := 0 |},
     [] ++ batch_axis) ∧
  MetricsLogger.__init__ (F:=Q) true (MetricsLogger.LFInt 1) 0 []
  = (Ok {| MetricsLogger.logging_batch_wise := true; MetricsLogger.log_freq := Some 1;
           MetricsLogger.global_batch := 0; MetricsLogger.global_step := 0 |},
     [] ++ batch_axis) ∧
  MetricsLogger.on_batch_end fixed_lr 7 (Some {["loss" := SFloat (1 # 2)]})
    {| MetricsLogger.self :=
         {| MetricsLogger.logging_batch_wise := true; MetricsLogger.log_freq := Some 1;
            MetricsLogger.global_batch := 0; MetricsLogger.global_step := 0 |};
       MetricsLogger.wandb := [] ++ batch_axis |}
  = (Ok tt,
     {| MetricsLogger.self :=
          {| MetricsLogger.logging_batch_wise := true; MetricsLogger.log_freq := Some 1;
             MetricsLogger.global_batch := 1; MetricsLogger.global_step := 0 + 1 |};
        MetricsLogger.wandb :=
          ([] ++ batch_axis)
          ++ [log (MetricsLogger.record "batch/" "batch_step" 0 (Some (1 # 100))
                     {["loss" := SFloat (1 # 2)]})] |}).
Proof.
  apply (batch_callback_logs_every_batch fixed_lr 7 {["loss" := SFloat (1 # 2)]} 0 []
           (Some (1 # 100))
           {| MetricsLogger.self :=
                {| MetricsLogger.logging_batch_wise := true;
                   MetricsLogger.log_freq := Some 1;
                   MetricsLogger.global_batch := 0;
                   MetricsLogger.global_step := 0 + 1 |};
              MetricsLogger.wandb := [] ++ batch_axis |}).
  reflexivity.
Defined.

Lemma get_ground_truth_annotations_labels_witness :
  ∃ boxes ids,
    BBoxUtils.select ((λ b, bool_decide (b = Z.of_nat 0)) <$> BBoxUtils.batch_idx two_frames)
      (BBoxUtils.bboxes two_frames) = Ok boxes ∧
    BBoxUtils.select ((λ b, bool_decide (b = Z.of_nat 0)) <$> BBoxUtils.batch_idx two_frames)
      (BBoxUtils.cls two_frames) = Ok ids ∧
    length first_frame_annotations = length boxes ∧
    Forall2 (λ ann c,
               BBoxUtils.class_id ann = c ∧
               (∃ name, dict_get cat_dog c = Ok name ∧
                        BBoxUtils.box_caption ann = BBoxUtils.Name name) ∧
               BBoxUtils.domain ann = "pixel" ∧
               BBoxUtils.scores ann = None) first_frame_annotations ids.
Proof.
  apply (get_ground_truth_annotations_labels (Image:=Image) int_of_float
           xywhn2xyxy scale_boxes xyxy2xywh 0 "a.jpg" two_frames cat_dog
           empty_state empty_state first_frame_annotations).
  - apply NoDup_cons. split; [|apply NoDup_singleton].
    intros Hin. apply list_elem_of_singleton in Hin. discriminate Hin.
  - vm_compute. reflexivity.
Defined.

(** The stand-in for [wandb.Image] refuses a [box_data] that is None. *)
Lemma wandb_Image_refuses_None src groups :
  Exists (λ g, BBoxUtils.box_data g.2 = None) groups →
  wandb_Image src groups = Raise TypeError.
Proof.
  intros Hnone. unfold wandb_Image.
  replace (forallb _ groups) with false; [done|].
  symmetry. induction Hnone as [g groups Hg|g groups _ IH]; simpl.
  - by rewrite Hg.
  - rewrite IH. by destruct (bool_decide _).
Qed.

Lemma unlabelled_frame_is_skipped_witness :
  try_except_only TypeError
    (Rational.frame_block (Some cat_dog) None no_box_frame 0 "a.jpg"
       {| BBoxUtils.box_data := Some []; BBoxUtils.class_labels := Some cat_dog |}
       ∅ 0)
    (mret 0) empty_state
  = (Ok 0,
     {| BBoxUtils.table := BBoxUtils.table empty_state;
        BBoxUtils.wandb := BBoxUtils.wandb empty_state
                           ++ [BBoxUtils.no_labels_warning "a.jpg"] |}).
Proof.
  apply (unlabelled_frame_is_skipped int_of_float xywhn2xyxy scale_boxes xyxy2xywh
           wandb_Image cat_dog None no_box_frame 0 "a.jpg").
  - apply wandb_Image_refuses_None.
  - reflexivity.
  - reflexivity.
  - apply Forall_cons. split; [discriminate | apply Forall_nil_2].
Defined.

Lemma prediction_overlay_boxes_witness :
  ∃ image predictions mean_confidence_map box_data,
    Rational.prediction_overlay one_detection
    = Ok (image, predictions, mean_confidence_map) ∧
    BBoxUtils.box_data predictions = Some box_data ∧
    BBoxUtils.class_labels predictions = Some (BBoxUtils.names one_detection) ∧
    length box_data = length (BBoxUtils.boxes_xywh one_detection) ∧
    Forall (λ ann,
              (∃ name, dict_get (BBoxUtils.names one_detection) (BBoxUtils.class_id ann)
                       = Ok name ∧
                       BBoxUtils.box_caption ann = BBoxUtils.Name name) ∧
              is_Some (BBoxUtils.scores ann) ∧
              BBoxUtils.domain ann = "pixel") box_data ∧
    Rational.get_mean_confidence_map
      (int_of_float <$> BBoxUtils.boxes_cls one_detection)
      (BBoxUtils.boxes_conf one_detection) (BBoxUtils.names one_detection)
    = Ok mean_confidence_map.
Proof.
  destruct (Rational.prediction_overlay one_detection)
    as [[[image predictions] mean_confidence_map]|e] eqn:Hrun;
    [|vm_compute in Hrun; discriminate Hrun].
  destruct (prediction_overlay_boxes float_of_int fadd fdiv int_of_float
              wandb_Image flip_channels one_detection image predictions
              mean_confidence_map Hrun) as (box_data & Hboxes).
  by exists image, predictions, mean_confidence_map, box_data.
Defined.

Lemma plot_predictions_unknown_class_witness :
  Rational.plot_predictions unknown_detection true empty_state
  = (Raise KeyError, empty_state).
Proof.
  apply (plot_predictions_unknown_class float_of_int fadd fdiv int_of_float
           wandb_Image flip_channels unknown_detection true empty_state).
  apply Exists_cons_hd. simpl. intros Hin.
  apply elem_of_cons in Hin as [Hin|Hin]; [vm_compute in Hin; discriminate Hin|].
  apply elem_of_cons in Hin as [Hin|Hin]; [vm_compute in Hin; discriminate Hin|].
  by apply elem_of_nil in Hin.
Defined.

Lemma mapper_shape_and_arity_witness :
  Rational.scale_bounding_box_to_original_image_shape
    (Vec4 (1 # 2) (1 # 2) (1 # 4) (1 # 4)) [10; 10; 3] [10; 10] unit_ratio_pad
  = Raise ValueError ∧
  length [10; 10] = 2%nat ∧ length [5; 5; 5 # 2; 5 # 2]%Q = 4%nat.
Proof.
  split.
  - apply (mapper_shape_and_arity xywhn2xyxy scale_boxes xyxy2xywh
             (Vec4 (1 # 2) (1 # 2) (1 # 4) (1 # 4)) [10; 10; 3] [10; 10]
             unit_ratio_pad). discriminate.
  - apply (mapper_shape_and_arity xywhn2xyxy scale_boxes xyxy2xywh
             (Vec4 (1 # 2) (1 # 2) (1 # 4) (1 # 4)) [10; 10] [10; 10]
             unit_ratio_pad). vm_compute. reflexivity.
Defined.
End more_examples.
